(** * Ledger rules of the Naman-Digital applications

    A shallow embedding of the database handlers of four small applications
    (task tracker, inventory manager, hotel booking, library system) and the
    properties their specification states about them.

    Conventions of the embedding.
    - A SQL table is the list of its rows in insertion (rowid) order.
    - Python [int] values and INTEGER columns are [Z]; REAL columns are exact
      rationals ([Q]): no handler modelled here branches on a REAL value.
    - An integer bound to a statement has to fit 64 bits ([int64]); Python
      raises [OverflowError] otherwise and nothing is written.  The views of
      the hotel ([cancel_booking_route], [book_room]) carry that test.  The
      handlers of the inventory are written for integers that fit, and a
      theorem that depends on it says so in its hypotheses; the invariants
      of the tables hold either way, a request that overflows being one
      that commits nothing.
    - A handler works on a connection of its own: what it writes becomes
      visible only at [commit].  An exception before [commit] leaves the
      database as it was; the handler result then tells which exception
      escaped (or that it was caught).  Each request is taken on a database
      that no connection of an earlier request still holds locked.
    - The clock ([CURRENT_TIMESTAMP], [date.today()]) is an argument.
    - A Flask view is taken past [login_required], with its form fields
      already read by [int(..)] and [float(..)]. *)

From Stdlib Require Import ZArith QArith List Ascii String Bool Lia.
From Stdlib Require Import Permutation Sorted FinFun.
Import ListNotations.

Local Open Scope string_scope.
Local Open Scope Z_scope.

(** ** Statements that may raise

    [tx S A] is a sequence of statements run against a working copy [S] of
    the database: it either raises, or yields a value and the new working
    copy.  Nothing is written back unless the caller commits. *)

Module Tx.

Inductive exn : Type :=
| TypeError          (* Python: subscripting or unpacking [None] *)
| IntegrityError     (* sqlite3.IntegrityError: CHECK, NOT NULL, PRIMARY KEY *)
| OperationalError   (* sqlite3.OperationalError: wrong number of values *)
| OverflowError.     (* Python: an int too large to bind as SQLite INTEGER *)

(** [except sqlite3.Error] catches the two database errors only. *)
Definition is_sqlite3_Error (e : exn) : bool :=
  match e with
  | TypeError | OverflowError => false
  | IntegrityError | OperationalError => true
  end.

Definition tx (S A : Type) : Type := S -> exn + (A * S).

Definition ret {S A} (a : A) : tx S A := fun s => inr (a, s).

Definition raise {S A} (e : exn) : tx S A := fun _ => inl e.

Definition bind {S A B} (c : tx S A) (k : A -> tx S B) : tx S B :=
  fun s => match c s with
           | inl e => inl e
           | inr (a, s') => k a s'
           end.

Definition get {S} : tx S S := fun s => inr (s, s).

Definition put {S} (s : S) : tx S unit := fun _ => inr (tt, s).

(** A constraint of the schema: the statement raises when it fails. *)
Definition require {S} (ok : bool) (e : exn) : tx S unit :=
  if ok then ret tt else raise e.

End Tx.

Import Tx.

Declare Scope tx_scope.
Delimit Scope tx_scope with tx.
Notation "x <- c ;; k" := (bind c (fun x => k))
  (at level 61, c at next level, right associativity) : tx_scope.
Notation "c ;; k" := (bind c (fun _ => k))
  (at level 61, right associativity) : tx_scope.

(** The integers the [sqlite3] module can bind to a parameter: those of 64
    bits, signed.  Binding another one raises [OverflowError] before the
    statement runs. *)
Definition int64 (z : Z) : bool := (- 2 ^ 63 <=? z) && (z <? 2 ^ 63).

Definition bind_parameter {S} (z : Z) : tx S unit := require (int64 z) OverflowError.

(** [member s l]: the SQL test [s IN (...)] on text. *)
Definition member (s : string) (l : list string) : bool :=
  existsb (String.eqb s) l.

Definition member_Z (z : Z) (l : list Z) : bool := existsb (Z.eqb z) l.

(** The rowid an AUTOINCREMENT table gives its next row: one more than the
    largest rowid used so far (1 in an empty table).  No handler modelled
    here deletes a row, so the largest rowid used is the largest present. *)
Definition next_rowid (ids : list Z) : Z := 1 + fold_right Z.max 0 ids.

(** [UPDATE t SET ... WHERE ...] on a table with a CHECK constraint: the rows
    that match are rewritten, and the statement raises when a rewritten row
    fails the constraint. *)
Definition update_where {R : Type} (matches : R -> bool) (set : R -> R)
    (check : R -> bool) (rows : list R) : exn + list R :=
  if forallb (fun r => negb (matches r) || check (set r)) rows
  then inr (map (fun r => if matches r then set r else r) rows)
  else inl IntegrityError.

(** An HTTP request as a Flask view sees it. *)
Inductive request (F : Type) : Type :=
| GET
| POST (form : F).
Arguments GET {F}.
Arguments POST {F} form.

(** [flash(message, category)]; the category is ["message"] when omitted. *)
Inductive flash : Type := Flash (message category : string).

Definition flash_message (message : string) : flash := Flash message "message".

(** What a Flask view answers. *)
Inductive response : Type :=
| Redirect (endpoint : string) (flashed : flash)
    (* flash(..); redirect(url_for(..)) *)
| Render (template : string)
| InternalServerError (e : exn).
    (* an exception left the view *)

(** ** 002 Inventory management system *)

Module Inventory.

(** Row of [items] (app.py, 25-35). *)
Record item : Type := mkItem {
  i_id : Z;
  i_name : string;
  i_description : string;
  i_quantity : Z;
  i_unit_price : Q;
  i_category : string;
  i_minimum_stock : Z;
  i_created_at : string;
  i_updated_at : string
}.

(** Row of [transactions] (app.py, 38-49). *)
Record transaction : Type := mkTransaction {
  t_id : Z;
  t_item_id : Z;
  t_type : string;
  t_quantity : Z;
  t_unit_price : Q;
  t_total_amount : Q;
  t_reference_no : option string;
  t_notes : option string;
  t_created_at : string
}.

Record db : Type := mkDb {
  items : list item;
  transactions : list transaction
}.

Definition empty_db : db := mkDb [] [].

(** [CHECK(type IN ('in', 'out'))] of the transactions table. *)
Definition type_check (ty : string) : bool := member ty ["in"; "out"].

(** [INSERT INTO transactions (...)]: a new rowid, the CHECK on [type]. *)
Definition insert_transaction (now : string) (item_id : Z) (ty : string)
    (quantity : Z) (unit_price total_amount : Q)
    (reference_no notes : option string) : tx db unit :=
  (d <- get ;;
   require (type_check ty) IntegrityError ;;
   put (mkDb (items d)
             (transactions d ++
              [mkTransaction (next_rowid (map t_id (transactions d))) item_id ty
                 quantity unit_price total_amount reference_no notes now])))%tx.

(** [SELECT quantity FROM items WHERE id = ?] followed by [fetchone()]. *)
Definition select_quantity (d : db) (item_id : Z) : option Z :=
  option_map i_quantity (find (fun i => i_id i =? item_id) (items d)).

(** [UPDATE items SET quantity = ? WHERE id = ?]. *)
Definition set_quantity (new_quantity item_id : Z) (i : item) : item :=
  if i_id i =? item_id
  then mkItem (i_id i) (i_name i) (i_description i) new_quantity (i_unit_price i)
              (i_category i) (i_minimum_stock i) (i_created_at i) (i_updated_at i)
  else i.

Definition update_quantity (new_quantity item_id : Z) : tx db unit :=
  (d <- get ;;
   put (mkDb (map (set_quantity new_quantity item_id) (items d)) (transactions d)))%tx.

(** Form of [/items/add], after [int(..)] and [float(..)]. *)
Record item_form : Type := mkItemForm {
  f_name : string;
  f_description : string;
  f_quantity : Z;
  f_unit_price : Q;
  f_category : string;
  f_minimum_stock : Z
}.

(** Form of [/items/edit/<id>]. *)
Record edit_form : Type := mkEditForm {
  e_name : string;
  e_description : string;
  e_category : string;
  e_minimum_stock : Z
}.

(** Form of [/transactions/add]. *)
Record transaction_form : Type := mkTransactionForm {
  tf_item_id : Z;
  tf_type : string;
  tf_quantity : Z;
  tf_unit_price : Q;
  tf_reference_no : string;
  tf_notes : string
}.

(** A view runs its statements and commits; an exception discards them. *)
Definition commit_or_500 (d : db) (c : tx db response) : db * response :=
  match c d with
  | inr (r, d') => (d', r)
  | inl e => (d, InternalServerError e)
  end.

(** [add_item] (app.py, 189-219). *)
Definition add_item_post (now : string) (f : item_form) : tx db response :=
  (d <- get ;;
   let item_id := next_rowid (map i_id (items d)) in
   put (mkDb (items d ++
              [mkItem item_id (f_name f) (f_description f) (f_quantity f)
                 (f_unit_price f) (f_category f) (f_minimum_stock f) now now])
             (transactions d)) ;;
   (* Record initial stock as transaction if quantity > 0 *)
   (if f_quantity f >? 0
    then insert_transaction now item_id "in" (f_quantity f) (f_unit_price f)
           (inject_Z (f_quantity f) * f_unit_price f)%Q None (Some "Initial stock")
    else ret tt) ;;
   ret (Redirect "items_list" (flash_message "Item added successfully!")))%tx.

Definition add_item (now : string) (req : request item_form) (d : db)
    : db * response :=
  match req with
  | POST f => commit_or_500 d (add_item_post now f)
  | GET => (d, Render "items/add.html")
  end.

(** [edit_item] (app.py, 221-245). *)
Definition set_details (now : string) (id : Z) (f : edit_form) (i : item) : item :=
  if i_id i =? id
  then mkItem (i_id i) (e_name f) (e_description f) (i_quantity i) (i_unit_price i)
              (e_category f) (e_minimum_stock f) (i_created_at i) now
  else i.

Definition edit_item_post (now : string) (id : Z) (f : edit_form) : tx db response :=
  (d <- get ;;
   put (mkDb (map (set_details now id f) (items d)) (transactions d)) ;;
   ret (Redirect "items_list" (flash_message "Item updated successfully!")))%tx.

Definition edit_item (now : string) (id : Z) (req : request edit_form) (d : db)
    : db * response :=
  match req with
  | POST f => commit_or_500 d (edit_item_post now id f)
  | GET => (d, Render "items/edit.html")
  end.

(** [add_transaction] (app.py, 260-297).  The early return on insufficient
    stock happens before any write; [item['quantity']] raises [TypeError]
    when no row has the id. *)
Definition add_transaction_post (now : string) (f : transaction_form)
    : tx db response :=
  (d <- get ;;
   match select_quantity d (tf_item_id f) with
   | None => raise TypeError
   | Some item_quantity =>
     if String.eqb (tf_type f) "out" && (tf_quantity f >? item_quantity)
     then ret (Redirect "add_transaction" (flash_message "Error: Insufficient stock!"))
     else
       (* Update item quantity *)
       let new_quantity :=
         if String.eqb (tf_type f) "in"
         then item_quantity + tf_quantity f
         else item_quantity - tf_quantity f in
       update_quantity new_quantity (tf_item_id f) ;;
       (* Add transaction record *)
       let total_amount := (inject_Z (tf_quantity f) * tf_unit_price f)%Q in
       insert_transaction now (tf_item_id f) (tf_type f) (tf_quantity f)
         (tf_unit_price f) total_amount
         (Some (tf_reference_no f)) (Some (tf_notes f)) ;;
       ret (Redirect "transactions_list" (flash_message "Transaction added successfully!"))
   end)%tx.

Definition add_transaction (now : string) (req : request transaction_form)
    (d : db) : db * response :=
  match req with
  | POST f => commit_or_500 d (add_transaction_post now f)
  | GET => (d, Render "transactions/add.html")
  end.

(** [dashboard] (app.py, 145-179): the summary statistics and the low stock
    list.  [ORDER BY quantity ASC] is modelled by a stable insertion sort on
    the table order; SQLite leaves the order of rows with equal quantity
    open, and nothing below depends on it. *)
Definition is_low_stock (i : item) : bool := i_quantity i <=? i_minimum_stock i.

Fixpoint insert_by_quantity (i : item) (l : list item) : list item :=
  match l with
  | [] => [i]
  | j :: l' =>
    if i_quantity i <=? i_quantity j then i :: j :: l'
    else j :: insert_by_quantity i l'
  end.

Definition order_by_quantity (l : list item) : list item :=
  fold_right insert_by_quantity [] l.

(** [SELECT * FROM items WHERE quantity <= minimum_stock
     ORDER BY quantity ASC LIMIT 5]. *)
Definition low_stock_items (d : db) : list item :=
  firstn 5 (order_by_quantity (filter is_low_stock (items d))).

(** The order of [ORDER BY quantity ASC]. *)
Definition by_quantity (i j : item) : Prop := i_quantity i <= i_quantity j.

Record stats : Type := mkStats {
  total_items : nat;
  total_value : Q;
  low_stock : nat
}.

Definition dashboard_stats (d : db) : stats :=
  mkStats (List.length (items d))
          (fold_right (fun i acc => inject_Z (i_quantity i) * i_unit_price i + acc)%Q
                      0%Q (items d))
          (List.length (filter is_low_stock (items d))).

(** *** The ledger of an item *)

(** What a transaction row contributes to the movements of type [ty] of the
    item [item_id]. *)
Definition moved (ty : string) (item_id : Z) (t : transaction) : Z :=
  if (t_item_id t =? item_id) && String.eqb (t_type t) ty then t_quantity t else 0.

Definition total (ty : string) (item_id : Z) (ts : list transaction) : Z :=
  fold_right (fun t acc => moved ty item_id t + acc) 0 ts.




(** The requests that write to the two tables. *)
Inductive event : Type :=
| AddItem (now : string) (req : request item_form)
| EditItem (now : string) (id : Z) (req : request edit_form)
| AddTransaction (now : string) (req : request transaction_form).

Definition handle (ev : event) (d : db) : db * response :=
  match ev with
  | AddItem now req => add_item now req d
  | EditItem now id req => edit_item now id req d
  | AddTransaction now req => add_transaction now req d
  end.

Fixpoint run (d : db) (evs : list event) : db :=
  match evs with
  | [] => d
  | ev :: evs' => run (fst (handle ev d)) evs'
  end.




(** The columns [edit_item] does not name. *)
Definition kept_columns (i : item) : Z * Z * Q * string :=
  (i_id i, i_quantity i, i_unit_price i, i_created_at i).

(** Sample data. *)
Definition widget_form (quantity : Z) : item_form :=
  mkItemForm "widget" "a widget" quantity 2%Q "parts" 10.

Definition one_widget (quantity : Z) : db :=
  fst (add_item "2024-01-01 09:00:00" (POST (widget_form quantity)) empty_db).

Definition movement (ty : string) (amount : Z) : transaction_form :=
  mkTransactionForm 1 ty amount 2%Q "ref-1" "".



(** Six items at or under their minimum stock of 10, with 0 to 5 in stock. *)
Definition six_low : db :=
  run empty_db
    (map (fun q => AddItem "2024-01-01 09:00:00" (POST (widget_form q)))
         [3; 0; 5; 1; 4; 2]).

(** The six items of [six_low] and one holding 50, above its minimum of 10. *)
Definition six_low_one_high : db :=
  fst (add_item "2024-01-01 10:00:00" (POST (widget_form 50)) six_low).

(** The items of the table split by the rule of the specification, which the
    query states as [quantity <= minimum_stock]: [low] holds the items at
    or under their minimum, [others] the items above it. *)
Definition low_stock_split (d : db) (low others : list item) : Prop :=
  Permutation (items d) (low ++ others)
  /\ (forall i, In i low -> i_quantity i <= i_minimum_stock i)
  /\ (forall i, In i others -> i_minimum_stock i < i_quantity i).

(** No item of the table has a negative quantity. *)
Definition stock_nonneg (d : db) : Prop :=
  forall i, In i (items d) -> 0 <= i_quantity i.

(** The request adds no negative stock: no negative initial quantity, no
    negative amount of type in. *)
Definition adds_stock (ev : event) : Prop :=
  match ev with
  | AddItem _ (POST f) => 0 <= f_quantity f
  | AddTransaction _ (POST f) => tf_type f = "in" -> 0 <= tf_quantity f
  | _ => True
  end.

(** The columns of an item that no handler writes after [add_item]. *)
Definition fixed_columns (i : item) : Z * Q * string :=
  (i_id i, i_unit_price i, i_created_at i).

(** The rowids 1, 2, ..., n. *)
Definition rowids (n : nat) : list Z := map Z.of_nat (seq 1 n).

(** Sample data: a day on one item, ending with nothing in stock. *)
Definition busy_day : list event :=
  [ AddItem "2024-01-01 09:00:00" (POST (widget_form 10));
    AddTransaction "2024-01-01 10:00:00" (POST (movement "out" 4));
    AddTransaction "2024-01-01 11:00:00" (POST (movement "in" 5));
    AddTransaction "2024-01-01 12:00:00" (POST (movement "out" 100));
    AddTransaction "2024-01-01 13:00:00" (POST (movement "out" 11)) ].

(** *** Facts about the inventory handlers *)






Lemma select_quantity_Some d item_id q :
  select_quantity d item_id = Some q ->
  exists i, In i (items d) /\ i_id i = item_id /\ i_quantity i = q.
Proof.
  unfold select_quantity. destruct (find _ _) as [i|] eqn:F; simpl; [|discriminate].
  intros [= <-]. apply find_some in F as [Hin E]. exists i.
  apply Z.eqb_eq in E. auto.
Qed.

(** The three outcomes of a posted transaction, as equations. *)
Lemma add_transaction_unknown_item now f d :
  select_quantity d (tf_item_id f) = None ->
  add_transaction now (POST f) d = (d, InternalServerError TypeError).
Proof.
  intros E. unfold add_transaction, commit_or_500, add_transaction_post, bind, get.
  now rewrite E.
Qed.

Lemma add_transaction_refused now f d q :
  select_quantity d (tf_item_id f) = Some q ->
  String.eqb (tf_type f) "out" && (tf_quantity f >? q) = true ->
  add_transaction now (POST f) d
  = (d, Redirect "add_transaction" (flash_message "Error: Insufficient stock!")).
Proof.
  intros E T. unfold add_transaction, commit_or_500, add_transaction_post, bind, get.
  now rewrite E, T.
Qed.

Lemma add_transaction_passed now f d q :
  select_quantity d (tf_item_id f) = Some q ->
  String.eqb (tf_type f) "out" && (tf_quantity f >? q) = false ->
  add_transaction now (POST f) d
  = if type_check (tf_type f)
    then (mkDb (map (set_quantity
                       (if String.eqb (tf_type f) "in"
                        then q + tf_quantity f else q - tf_quantity f)
                       (tf_item_id f)) (items d))
               (transactions d ++
                [mkTransaction (next_rowid (map t_id (transactions d)))
                   (tf_item_id f) (tf_type f) (tf_quantity f) (tf_unit_price f)
                   (inject_Z (tf_quantity f) * tf_unit_price f)%Q
                   (Some (tf_reference_no f)) (Some (tf_notes f)) now]),
          Redirect "transactions_list" (flash_message "Transaction added successfully!"))
    else (d, InternalServerError IntegrityError).
Proof.
  intros E T.
  unfold add_transaction, commit_or_500, add_transaction_post, bind, get.
  rewrite E, T. unfold update_quantity, insert_transaction, bind, get, put, require.
  simpl. now destruct (type_check (tf_type f)).
Qed.

Lemma type_check_cases ty : type_check ty = true -> ty = "in" \/ ty = "out".
Proof.
  unfold type_check, member. simpl.
  destruct (String.eqb_spec ty "in"); [now left|].
  destruct (String.eqb_spec ty "out"); [now right|discriminate].
Qed.




(** What a posted [add_item] commits. *)
Lemma add_item_committed now f d :
  add_item now (POST f) d
  = (mkDb (items d ++
           [mkItem (next_rowid (map i_id (items d))) (f_name f) (f_description f)
              (f_quantity f) (f_unit_price f) (f_category f) (f_minimum_stock f)
              now now])
          (if f_quantity f >? 0
           then transactions d ++
                [mkTransaction (next_rowid (map t_id (transactions d)))
                   (next_rowid (map i_id (items d))) "in" (f_quantity f)
                   (f_unit_price f) (inject_Z (f_quantity f) * f_unit_price f)%Q
                   None (Some "Initial stock") now]
           else transactions d),
     Redirect "items_list" (flash_message "Item added successfully!")).
Proof.
  unfold add_item, commit_or_500, add_item_post, insert_transaction, bind, get, put.
  now destruct (f_quantity f >? 0).
Qed.


Lemma edit_item_committed now id f d :
  edit_item now id (POST f) d
  = (mkDb (map (set_details now id f) (items d)) (transactions d),
     Redirect "items_list" (flash_message "Item updated successfully!")).
Proof. reflexivity. Qed.

Lemma set_details_kept now id f i :
  kept_columns (set_details now id f i) = kept_columns i.
Proof. unfold set_details. now destruct (i_id i =? id). Qed.


Lemma set_quantity_id q item_id i : i_id (set_quantity q item_id i) = i_id i.
Proof. unfold set_quantity. now destruct (i_id i =? item_id). Qed.






Lemma insert_by_quantity_perm i l : Permutation (insert_by_quantity i l) (i :: l).
Proof.
  induction l as [|j l IH]; cbn [insert_by_quantity]; [reflexivity|].
  destruct (i_quantity i <=? i_quantity j); [reflexivity|].
  rewrite IH. apply perm_swap.
Qed.

Lemma order_by_quantity_perm l : Permutation (order_by_quantity l) l.
Proof.
  induction l as [|i l IH]; [reflexivity|].
  change (order_by_quantity (i :: l))
    with (insert_by_quantity i (order_by_quantity l)).
  now rewrite insert_by_quantity_perm, IH.
Qed.

Lemma insert_by_quantity_sorted i l :
  StronglySorted by_quantity l -> StronglySorted by_quantity (insert_by_quantity i l).
Proof.
  induction 1 as [|j l Hs IH Hj]; cbn [insert_by_quantity].
  - repeat constructor.
  - destruct (Z.leb_spec (i_quantity i) (i_quantity j)) as [Hle|Hgt].
    + constructor; [now constructor|]. constructor; [exact Hle|].
      rewrite Forall_forall in *. intros k Hk. specialize (Hj k Hk).
      unfold by_quantity in *. lia.
    + constructor; [exact IH|]. rewrite Forall_forall in *.
      intros k Hk. apply (Permutation_in _ (insert_by_quantity_perm i l)) in Hk.
      destruct Hk as [<-|Hk]; [unfold by_quantity; lia | now apply Hj].
Qed.

Lemma order_by_quantity_sorted l : StronglySorted by_quantity (order_by_quantity l).
Proof.
  induction l as [|i l IH]; [constructor|].
  now apply insert_by_quantity_sorted.
Qed.

Lemma sorted_app_inv (l1 l2 : list item) :
  StronglySorted by_quantity (l1 ++ l2) ->
  StronglySorted by_quantity l1 /\
  forall i j, In i l1 -> In j l2 -> by_quantity i j.
Proof.
  induction l1 as [|k l1 IH]; cbn [app].
  - intros _. split; [constructor|intros i j []].
  - intros H. apply StronglySorted_inv in H as [Hs Hk].
    destruct (IH Hs) as [Hs1 Hcross]. split.
    + constructor; [exact Hs1|]. rewrite Forall_forall in *.
      intros x Hx. apply Hk, in_or_app. now left.
    + intros i j [<-|Hi] Hj; [|now apply Hcross].
      rewrite Forall_forall in Hk. apply Hk, in_or_app. now right.
Qed.

Lemma is_low_stock_spec i : is_low_stock i = true <-> i_quantity i <= i_minimum_stock i.
Proof. apply Z.leb_le. Qed.

(** *** The claims on the inventory *)




(** C2.  When the posted movement is of type out and its amount is strictly
    greater than the quantity of the item, [add_transaction] answers with the
    insufficient stock error and the database, items and transactions alike,
    is what it was. *)
Theorem out_beyond_stock_is_refused now f d q :
  select_quantity d (tf_item_id f) = Some q ->
  tf_type f = "out" ->
  q < tf_quantity f ->
  add_transaction now (POST f) d
  = (d, Redirect "add_transaction" (flash_message "Error: Insufficient stock!")).
Proof.
  intros E Ty Hgt. apply (add_transaction_refused now f d q E).
  rewrite Ty. cbn [String.eqb]. apply andb_true_iff. split; [reflexivity|].
  apply Z.gtb_lt. exact Hgt.
Qed.

Lemma out_beyond_stock_is_refused_witness :
  select_quantity (one_widget 10) 1 = Some 10 /\
  add_transaction "2024-01-02 09:00:00" (POST (movement "out" 11)) (one_widget 10)
  = (one_widget 10,
     Redirect "add_transaction" (flash_message "Error: Insufficient stock!")).
Proof.
  split; [reflexivity|].
  apply (out_beyond_stock_is_refused _ (movement "out" 11) (one_widget 10) 10);
    [reflexivity | reflexivity | cbn; lia].
Defined.




(** C8, counterexample.  With six items at or under their minimum stock the
    dashboard lists five of them ([LIMIT 5]); the item holding 5, low on
    stock as well, is left out. *)
Lemma sixth_low_stock_item_is_left_out :
  map i_quantity (filter is_low_stock (items six_low)) = [3; 0; 5; 1; 4; 2] /\
  map i_quantity (low_stock_items six_low) = [0; 1; 2; 3; 4] /\
  exists i, In i (items six_low) /\ i_quantity i <= i_minimum_stock i /\
            ~ In i (low_stock_items six_low).
Proof.
  split; [reflexivity|]. split; [reflexivity|].
  exists (mkItem 3 "widget" "a widget" 5 2%Q "parts" 10
            "2024-01-01 09:00:00" "2024-01-01 09:00:00").
  split; [cbv; tauto|]. split; [cbn; lia|].
  intros Hin. apply (in_map i_quantity) in Hin.
  cbv in Hin. repeat (destruct Hin as [Hin|Hin]; [discriminate Hin|]). exact Hin.
Qed.

(** The rows of the WHERE clause, as [low_stock_items] limits them. *)
Lemma low_stock_items_of_filter d :
  let low := filter is_low_stock (items d) in
  let listed := low_stock_items d in
  (forall i, In i listed -> In i (items d) /\ i_quantity i <= i_minimum_stock i)
  /\ StronglySorted by_quantity listed
  /\ List.length listed = Nat.min 5 (List.length low)
  /\ (exists rest, Permutation low (listed ++ rest)
        /\ (forall i j, In i listed -> In j rest -> i_quantity i <= i_quantity j)
        /\ ((List.length low <= 5)%nat -> rest = []))
  /\ low_stock (dashboard_stats d) = List.length low.
Proof.
  cbv zeta. unfold low_stock_items.
  set (low := filter is_low_stock (items d)).
  set (sorted := order_by_quantity low).
  pose proof (order_by_quantity_perm low) as Hperm. fold sorted in Hperm.
  pose proof (order_by_quantity_sorted low) as Hsorted. fold sorted in Hsorted.
  rewrite <- (firstn_skipn 5 sorted) in Hperm, Hsorted.
  apply sorted_app_inv in Hsorted as [Hfirst Hcross].
  repeat split.
  - apply (filter_In is_low_stock i (items d)). fold low.
    apply (Permutation_in _ Hperm), in_or_app. now left.
  - apply is_low_stock_spec.
    apply (filter_In is_low_stock i (items d)). fold low.
    apply (Permutation_in _ Hperm), in_or_app. now left.
  - exact Hfirst.
  - rewrite length_firstn. f_equal. unfold sorted.
    apply Permutation_length, order_by_quantity_perm.
  - exists (skipn 5 sorted). split; [now symmetry|]. split; [exact Hcross|].
    intros Hlen. apply skipn_all2. unfold sorted.
    now rewrite (Permutation_length (order_by_quantity_perm low)).
Qed.

Lemma filter_Permutation {A} (p : A -> bool) l l' :
  Permutation l l' -> Permutation (filter p l) (filter p l').
Proof.
  induction 1 as [|x l l' _ IH|x y l|l l' l'' _ IH1 _ IH2]; cbn [filter].
  - constructor.
  - destruct (p x); [now constructor | exact IH].
  - destruct (p x), (p y); try apply Permutation_refl. constructor.
  - now transitivity (filter p l').
Qed.

Lemma filter_all {A} (p : A -> bool) l :
  (forall x, In x l -> p x = true) -> filter p l = l.
Proof.
  induction l as [|x l IH]; intros H; [reflexivity|]. cbn [filter].
  rewrite (H x (or_introl eq_refl)), IH; [reflexivity|].
  intros y Hy. apply H. now right.
Qed.

Lemma filter_none {A} (p : A -> bool) l :
  (forall x, In x l -> p x = false) -> filter p l = [].
Proof.
  induction l as [|x l IH]; intros H; [reflexivity|]. cbn [filter].
  rewrite (H x (or_introl eq_refl)). apply IH. intros y Hy. apply H. now right.
Qed.

(** The WHERE clause selects the items the specification calls low. *)
Lemma low_stock_split_filter d low others :
  low_stock_split d low others ->
  Permutation (filter is_low_stock (items d)) low.
Proof.
  intros (P & Hlow & Hothers).
  rewrite (filter_Permutation is_low_stock _ _ P), filter_app.
  rewrite (filter_all is_low_stock low), (filter_none is_low_stock others).
  - now rewrite app_nil_r.
  - intros i Hi. unfold is_low_stock. apply Z.leb_gt. now apply Hothers.
  - intros i Hi. apply is_low_stock_spec. now apply Hlow.
Qed.

(** C8, amended.  Split the items by the rule of the specification into
    those with quantity <= minimum_stock and those above their minimum.
    The low stock list of the dashboard holds only items of the first kind,
    in ascending order of quantity, and at most five of them: the items of
    the first kind split into the listed ones and the rest, no listed one
    has a larger quantity than one of the rest, and the list has min(5,
    number of items of the first kind) rows.  When at most five items are
    of the first kind the list holds exactly those; the low_stock count of
    the dashboard is their number in every case. *)
Theorem low_stock_items_first_five d low others :
  low_stock_split d low others ->
  let listed := low_stock_items d in
  (forall i, In i listed ->
     In i low /\ In i (items d) /\ i_quantity i <= i_minimum_stock i)
  /\ StronglySorted by_quantity listed
  /\ List.length listed = Nat.min 5 (List.length low)
  /\ (exists rest, Permutation low (listed ++ rest)
        /\ (forall i j, In i listed -> In j rest -> i_quantity i <= i_quantity j)
        /\ ((List.length low <= 5)%nat -> rest = []))
  /\ low_stock (dashboard_stats d) = List.length low.
Proof.
  intros Hsplit. cbv zeta.
  pose proof (low_stock_split_filter _ _ _ Hsplit) as P.
  pose proof (Permutation_length P) as L.
  destruct (low_stock_items_of_filter d) as (_ & Hsorted & Hlen & Hrest & Hcount).
  destruct Hrest as (rest & Prest & Hcross & Hall).
  assert (Plow : Permutation low (low_stock_items d ++ rest))
    by (now transitivity (filter is_low_stock (items d)); [symmetry|]).
  split; [|split; [exact Hsorted|split; [|split]]].
  - intros i Hi.
    assert (Hl : In i low)
      by (apply (Permutation_in _ (Permutation_sym Plow)), in_or_app; now left).
    split; [exact Hl|]. split; [|now apply (proj1 (proj2 Hsplit))].
    apply (Permutation_in _ (Permutation_sym (proj1 Hsplit))), in_or_app. now left.
  - now rewrite Hlen, L.
  - exists rest. split; [exact Plow|]. split; [exact Hcross|].
    intros H. apply Hall. now rewrite L.
  - now rewrite Hcount, L.
Qed.

Lemma low_stock_items_first_five_witness :
  let low := items six_low in
  let others := skipn 6 (items six_low_one_high) in
  map i_quantity low = [3; 0; 5; 1; 4; 2] /\
  map i_quantity others = [50] /\
  map i_quantity (low_stock_items six_low_one_high) = [0; 1; 2; 3; 4] /\
  List.length (low_stock_items six_low_one_high) = Nat.min 5 (List.length low) /\
  low_stock (dashboard_stats six_low_one_high) = 6%nat.
Proof.
  cbv zeta.
  assert (Hsplit : low_stock_split six_low_one_high (items six_low)
                     (skipn 6 (items six_low_one_high))).
  { split; [exact (Permutation_refl _)|]. split.
    - intros i Hi. apply is_low_stock_spec.
      revert i Hi. apply Forall_forall. repeat constructor.
    - intros i [<-|[]]. reflexivity. }
  split; [reflexivity|]. split; [reflexivity|]. split; [reflexivity|].
  pose proof (low_stock_items_first_five six_low_one_high _ _ Hsplit) as H.
  cbv zeta in H. split; [exact (proj1 (proj2 (proj2 H)))|].
  exact (proj2 (proj2 (proj2 (proj2 H)))).
Defined.

(** C9.  Whatever the request, [edit_item] leaves the transactions table as
    it was, keeps the rows of the items table in place with their id,
    quantity, unit_price and created_at, and leaves the rows of every other
    id untouched: only name, description, category, minimum_stock and
    updated_at of the edited item may change. *)
Theorem edit_item_keeps_quantity_and_ledger now id req d :
  let d' := fst (edit_item now id req d) in
  transactions d' = transactions d
  /\ map i_quantity (items d') = map i_quantity (items d)
  /\ map kept_columns (items d') = map kept_columns (items d)
  /\ Forall2 (fun i i' => i_id i <> id -> i' = i) (items d) (items d').
Proof.
  cbv zeta. destruct req as [|f].
  - cbn [edit_item fst]. repeat split. induction (items d); now constructor.
  - rewrite edit_item_committed. cbn [fst items transactions].
    split; [reflexivity|]. rewrite !map_map.
    assert (K : forall i, kept_columns (set_details now id f i) = kept_columns i)
      by apply set_details_kept.
    repeat split.
    + apply map_ext. intros i. specialize (K i). now injection K.
    + apply map_ext, K.
    + induction (items d) as [|i l IH]; cbn [map]; constructor; [|exact IH].
      intros N. unfold set_details. now destruct (Z.eqb_spec (i_id i) id).
Qed.
(** *** More facts about the inventory handlers *)

Lemma handle_appends ev d :
  exists new_items new_transactions,
    map fixed_columns (items (fst (handle ev d)))
    = (map fixed_columns (items d) ++ map fixed_columns new_items)%list
    /\ transactions (fst (handle ev d)) = (transactions d ++ new_transactions)%list
    /\ (List.length new_items <= 1)%nat
    /\ forall i, In i new_items -> i_id i = next_rowid (map i_id (items d)).
Proof.
  assert (Same : forall d', items d' = items d -> transactions d' = transactions d ->
            exists new_items new_transactions,
              map fixed_columns (items d')
              = (map fixed_columns (items d) ++ map fixed_columns new_items)%list
              /\ transactions d' = (transactions d ++ new_transactions)%list
              /\ (List.length new_items <= 1)%nat
              /\ forall i, In i new_items -> i_id i = next_rowid (map i_id (items d))).
  { intros d' -> ->. exists [], []. cbn [map]. rewrite !app_nil_r. repeat split.
    - cbn. lia.
    - intros i []. }
  destruct ev as [now [|f]|now id [|f]|now [|f]]; cbn [handle];
    try (apply Same; reflexivity).
  - rewrite add_item_committed. cbn [fst items transactions].
    eexists [_], (if f_quantity f >? 0 then [_] else []). rewrite map_app.
    repeat split.
    + destruct (f_quantity f >? 0); [reflexivity | now rewrite app_nil_r].
    + cbn. lia.
    + intros i [<-|[]]. reflexivity.
  - rewrite edit_item_committed. cbn [fst items transactions].
    exists [], []. cbn [map]. rewrite !app_nil_r. repeat split.
    + rewrite map_map. apply map_ext. intros i. unfold fixed_columns, set_details.
      now destruct (i_id i =? id).
    + cbn. lia.
    + intros i [].
  - destruct (select_quantity d (tf_item_id f)) as [q|] eqn:E.
    2:{ rewrite add_transaction_unknown_item by exact E. now apply Same. }
    destruct (String.eqb (tf_type f) "out" && (tf_quantity f >? q)) eqn:T.
    { rewrite (add_transaction_refused _ _ _ _ E T). now apply Same. }
    rewrite (add_transaction_passed _ _ _ _ E T).
    destruct (type_check (tf_type f)); [|now apply Same].
    cbn [fst items transactions]. eexists [], [_]. cbn [map]. rewrite !app_nil_r.
    repeat split.
    + rewrite map_map. apply map_ext. intros i. unfold fixed_columns, set_quantity.
      now destruct (i_id i =? tf_item_id f).
    + cbn. lia.
    + intros i [].
Qed.

(** X10.  The handlers only ever append: after any sequence of requests the
    transactions table starts with the rows it had, unchanged, and the items
    table starts with the items it had, each with its id, unit_price and
    created_at.  No handler deletes or renumbers a row, and none changes the
    unit price of an item. *)
Theorem tables_only_grow evs d :
  exists new_items new_transactions,
    map fixed_columns (items (run d evs))
    = (map fixed_columns (items d) ++ map fixed_columns new_items)%list
    /\ transactions (run d evs) = (transactions d ++ new_transactions)%list.
Proof.
  revert d. induction evs as [|ev evs IH]; intros d; cbn [run].
  - exists [], []. cbn [map]. now rewrite !app_nil_r.
  - destruct (IH (fst (handle ev d))) as (ni2 & nt2 & Hi2 & Ht2).
    destruct (handle_appends ev d) as (ni1 & nt1 & Hi1 & Ht1 & _).
    exists (ni1 ++ ni2)%list, (nt1 ++ nt2)%list.
    rewrite Hi2, Ht2, Hi1, Ht1, map_app, !app_assoc. now split.
Qed.

Lemma max_seq k n :
  fold_right Z.max 0 (map Z.of_nat (seq k n))
  = match n with O => 0 | S _ => Z.of_nat (k + n - 1) end.
Proof.
  revert k. induction n as [|n IH]; intros k; [reflexivity|].
  cbn [seq map fold_right]. rewrite IH. destruct n; lia.
Qed.

Lemma next_rowid_rowids n : next_rowid (rowids n) = Z.of_nat (S n).
Proof. unfold next_rowid, rowids. rewrite max_seq. destruct n; lia. Qed.

Lemma rowids_S n : rowids (S n) = (rowids n ++ [Z.of_nat (S n)])%list.
Proof. unfold rowids. now rewrite seq_S, map_app. Qed.

(** X11.  Started on the empty database, the handlers number the rows in
    the order they are added: the items have the ids 1, 2, ..., and so have
    the transactions; in particular no two rows of a table share an id. *)
Theorem rowids_are_sequential evs :
  let d := run empty_db evs in
  map i_id (items d) = rowids (List.length (items d))
  /\ map t_id (transactions d) = rowids (List.length (transactions d))
  /\ NoDup (map i_id (items d)) /\ NoDup (map t_id (transactions d)).
Proof.
  cbv zeta.
  assert (Inv : forall evs d,
            map i_id (items d) = rowids (List.length (items d)) ->
            map t_id (transactions d) = rowids (List.length (transactions d)) ->
            map i_id (items (run d evs)) = rowids (List.length (items (run d evs)))
            /\ map t_id (transactions (run d evs))
               = rowids (List.length (transactions (run d evs)))).
  { clear evs. induction evs as [|ev evs IH]; intros d Hi Ht; [now split|].
    cbn [run]. apply IH.
    - destruct ev as [now [|f]|now id [|f]|now [|f]]; cbn [handle]; try exact Hi.
      + rewrite add_item_committed. cbn [fst items].
        rewrite map_app, length_app, Nat.add_1_r, rowids_S.
        cbn [map i_id List.length]. now rewrite Hi, next_rowid_rowids.
      + rewrite edit_item_committed. cbn [fst items].
        rewrite map_map, length_map, <- Hi. apply map_ext. intros i.
        unfold set_details. now destruct (i_id i =? id).
      + destruct (select_quantity d (tf_item_id f)) as [q|] eqn:E.
        2:{ now rewrite add_transaction_unknown_item by exact E. }
        destruct (String.eqb (tf_type f) "out" && (tf_quantity f >? q)) eqn:T.
        { now rewrite (add_transaction_refused _ _ _ _ E T). }
        rewrite (add_transaction_passed _ _ _ _ E T).
        destruct (type_check (tf_type f)); [|exact Hi]. cbn [fst items].
        rewrite map_map, length_map, <- Hi. apply map_ext. intros i.
        apply set_quantity_id.
    - destruct ev as [now [|f]|now id [|f]|now [|f]]; cbn [handle]; try exact Ht.
      + rewrite add_item_committed. cbn [fst transactions].
        destruct (f_quantity f >? 0); [|exact Ht].
        rewrite map_app, length_app, Nat.add_1_r, rowids_S.
        cbn [map t_id List.length]. now rewrite Ht, next_rowid_rowids.
      + destruct (select_quantity d (tf_item_id f)) as [q|] eqn:E.
        2:{ now rewrite add_transaction_unknown_item by exact E. }
        destruct (String.eqb (tf_type f) "out" && (tf_quantity f >? q)) eqn:T.
        { now rewrite (add_transaction_refused _ _ _ _ E T). }
        rewrite (add_transaction_passed _ _ _ _ E T).
        destruct (type_check (tf_type f)); [|exact Ht]. cbn [fst transactions].
        rewrite map_app, length_app, Nat.add_1_r, rowids_S.
        cbn [map t_id List.length]. now rewrite Ht, next_rowid_rowids. }
  assert (ND : forall n, NoDup (rowids n)).
  { intros n. unfold rowids. apply Injective_map_NoDup; [|apply seq_NoDup].
    intros a b. apply Nat2Z.inj. }
  destruct (Inv evs empty_db eq_refl eq_refl) as [Hi Ht].
  repeat split; [exact Hi | exact Ht | rewrite Hi; apply ND | rewrite Ht; apply ND].
Qed.

Lemma handle_stock_nonneg ev d :
  adds_stock ev -> stock_nonneg d -> stock_nonneg (fst (handle ev d)).
Proof.
  intros Hev Hd.
  destruct ev as [now [|f]|now id [|f]|now [|f]]; cbn [handle]; try exact Hd.
  - rewrite add_item_committed. intros i Hi. cbn [fst items] in Hi.
    apply in_app_or in Hi as [Hi|[<-|[]]]; [now apply Hd | exact Hev].
  - rewrite edit_item_committed. intros i' Hi'. cbn [fst items] in Hi'.
    apply in_map_iff in Hi' as (i & <- & Hi). unfold set_details.
    destruct (i_id i =? id); cbn [i_quantity]; now apply Hd.
  - cbn [adds_stock] in Hev.
    destruct (select_quantity d (tf_item_id f)) as [q|] eqn:E.
    2:{ now rewrite add_transaction_unknown_item by exact E. }
    destruct (String.eqb (tf_type f) "out" && (tf_quantity f >? q)) eqn:T.
    { now rewrite (add_transaction_refused _ _ _ _ E T). }
    rewrite (add_transaction_passed _ _ _ _ E T).
    destruct (type_check (tf_type f)) eqn:C; [|exact Hd].
    apply select_quantity_Some in E as (j & Hj & _ & Eq).
    pose proof (Hd j Hj) as Hq. rewrite Eq in Hq.
    intros i' Hi'. cbn [fst items] in Hi'.
    apply in_map_iff in Hi' as (i & <- & Hi). unfold set_quantity.
    destruct (i_id i =? tf_item_id f); cbn [i_quantity]; [|now apply Hd].
    destruct (type_check_cases _ C) as [Ty|Ty]; rewrite Ty in *; cbn in T |- *.
    + specialize (Hev eq_refl). lia.
    + destruct (Z.gtb_spec (tf_quantity f) q); [discriminate|lia].
Qed.

(** X12.  Stock never goes negative through movements out: from a database
    without negative quantities, along every sequence of requests in which
    no negative initial quantity and no negative amount of type in is
    posted, no item ever has a negative quantity, whatever the amounts of
    type out. *)
Theorem stock_never_negative evs d :
  stock_nonneg d -> Forall adds_stock evs -> stock_nonneg (run d evs).
Proof.
  intros Hd Hevs. revert d Hd.
  induction Hevs as [|ev evs Hev _ IH]; intros d Hd; [exact Hd|].
  cbn [run]. apply IH. now apply handle_stock_nonneg.
Qed.

Lemma stock_never_negative_witness :
  stock_nonneg empty_db /\
  Forall adds_stock busy_day /\
  stock_nonneg (run empty_db busy_day) /\
  map i_quantity (items (run empty_db busy_day)) = [0].
Proof.
  assert (H0 : stock_nonneg empty_db) by (intros i []).
  assert (H : Forall adds_stock busy_day).
  { repeat constructor; cbn; intros; try discriminate; lia. }
  split; [exact H0|]. split; [exact H|]. split; [|reflexivity].
  exact (stock_never_negative busy_day empty_db H0 H).
Defined.

(** X13.  A posted transaction for an id that no item has, or of a type
    other than in and out, ends in an internal server error and leaves both
    tables as they were; the quantity the handler had already updated for
    the unknown type is not committed.  For numbers that fit the integers
    of the database the error is the TypeError of subscripting None in the
    first case and the IntegrityError of the CHECK in the second. *)
Theorem add_transaction_server_error now f d :
  (select_quantity d (tf_item_id f) = None \/ type_check (tf_type f) = false ->
   exists e, add_transaction now (POST f) d = (d, InternalServerError e))
  /\ (int64 (tf_item_id f) = true ->
      select_quantity d (tf_item_id f) = None ->
      add_transaction now (POST f) d = (d, InternalServerError TypeError))
  /\ (forall q,
        select_quantity d (tf_item_id f) = Some q ->
        type_check (tf_type f) = false ->
        int64 (tf_item_id f) = true ->
        int64 (tf_quantity f) = true ->
        int64 (q - tf_quantity f) = true ->
        add_transaction now (POST f) d = (d, InternalServerError IntegrityError)).
Proof.
  assert (Bad : forall q, select_quantity d (tf_item_id f) = Some q ->
                  type_check (tf_type f) = false ->
                  add_transaction now (POST f) d
                  = (d, InternalServerError IntegrityError)).
  { intros q E C.
    assert (T : String.eqb (tf_type f) "out" && (tf_quantity f >? q) = false).
    { destruct (String.eqb_spec (tf_type f) "out") as [Ty|_]; [|reflexivity].
      rewrite Ty in C. discriminate. }
    now rewrite (add_transaction_passed _ _ _ _ E T), C. }
  split; [|split].
  - destruct (select_quantity d (tf_item_id f)) as [q|] eqn:E.
    + intros [C|C]; [discriminate|]. eexists. exact (Bad q eq_refl C).
    + intros _. eexists. now apply add_transaction_unknown_item.
  - intros _. apply add_transaction_unknown_item.
  - intros q E C _ _ _. exact (Bad q E C).
Qed.

Lemma add_transaction_server_error_witness :
  add_transaction "2024-01-02 09:00:00"
    (POST (mkTransactionForm 9 "in" 1 2%Q "" "")) (one_widget 10)
  = (one_widget 10, InternalServerError TypeError) /\
  add_transaction "2024-01-02 09:00:00" (POST (movement "transfer" 1)) (one_widget 10)
  = (one_widget 10, InternalServerError IntegrityError).
Proof.
  split.
  - apply (proj1 (proj2 (add_transaction_server_error _ _ _))); reflexivity.
  - apply (proj2 (proj2 (add_transaction_server_error _ _ _)) 10); reflexivity.
Defined.




End Inventory.

(** ** 003 Hotel booking system *)

Module Hotel.

(** Row of [rooms] (app.py, 26-34). *)
Record room : Type := mkRoom {
  r_id : Z;
  r_room_number : string;
  r_room_type : string;
  r_capacity : Z;
  r_price_per_night : Q;
  r_amenities : string;
  r_status : string
}.

(** Row of [bookings] (app.py, 37-50). *)
Record booking : Type := mkBooking {
  b_id : Z;
  b_user_id : Z;
  b_room_id : Z;
  b_check_in_date : string;
  b_check_out_date : string;
  b_total_price : Q;
  b_status : string;
  b_guest_count : Z;
  b_special_requests : string;
  b_created_at : string
}.

Record db : Type := mkDb {
  rooms : list room;
  bookings : list booking
}.

(** The CHECK constraints on the two status columns. *)
Definition room_status_check (r : room) : bool :=
  member (r_status r) ["available"; "occupied"; "maintenance"].

Definition booking_status_check (b : booking) : bool :=
  member (b_status b) ["confirmed"; "cancelled"; "completed"].

Definition set_room_status (status : string) (r : room) : room :=
  mkRoom (r_id r) (r_room_number r) (r_room_type r) (r_capacity r)
         (r_price_per_night r) (r_amenities r) status.

Definition set_booking_status (status : string) (b : booking) : booking :=
  mkBooking (b_id b) (b_user_id b) (b_room_id b) (b_check_in_date b)
            (b_check_out_date b) (b_total_price b) status (b_guest_count b)
            (b_special_requests b) (b_created_at b).

(** [UPDATE bookings SET status = ? WHERE id = ?]. *)
Definition update_booking_status (status : string) (booking_id : Z) : tx db unit :=
  fun d =>
    match update_where (fun b => b_id b =? booking_id) (set_booking_status status)
            booking_status_check (bookings d) with
    | inr bookings' => inr (tt, mkDb (rooms d) bookings')
    | inl e => inl e
    end.

(** [UPDATE rooms SET status = ? WHERE id = ?]. *)
Definition update_room_status (status : string) (room_id : Z) : tx db unit :=
  fun d =>
    match update_where (fun r => r_id r =? room_id) (set_room_status status)
            room_status_check (rooms d) with
    | inr rooms' => inr (tt, mkDb rooms' (bookings d))
    | inl e => inl e
    end.

(** [SELECT room_id FROM bookings WHERE id = ? AND user_id = ?], [fetchone()]. *)
Definition select_own_booking (d : db) (booking_id user_id : Z) : option booking :=
  find (fun b => (b_id b =? booking_id) && (b_user_id b =? user_id)) (bookings d).

(** The [try] block of [cancel_booking] (app.py, 223-233). *)
Definition cancel_booking_try (user_id booking_id : Z) : tx db flash :=
  (d <- get ;;
   (* Get the room_id first *)
   match select_own_booking d booking_id user_id with
   | Some booking =>
     update_booking_status "cancelled" booking_id ;;
     update_room_status "available" (b_room_id booking) ;;
     ret (Flash "Booking cancelled successfully!" "success")
   | None => ret (Flash "Booking not found!" "error")
   end)%tx.

(** [cancel_booking] (app.py, 219-238) for the user of the session: the
    database after the request and the answer.  [except sqlite3.Error]
    flashes an error and nothing is committed. *)
Definition cancel_booking (user_id booking_id : Z) (d : db) : db * response :=
  match cancel_booking_try user_id booking_id d with
  | inr (f, d') => (d', Redirect "bookings" f)
  | inl e =>
    if is_sqlite3_Error e
    then (d, Redirect "bookings"
               (Flash "Error cancelling booking. Please try again." "error"))
    else (d, InternalServerError e)
  end.

(** The route [/cancel_booking/<int:booking_id>]: the id is whatever run of
    digits the URL holds.  The SELECT binds it with the user id of the
    session, and the [sqlite3] module raises [OverflowError] for an id beyond
    64 bits; the UPDATEs bind the same id and a room id read from the table.
    [OverflowError] is no [sqlite3.Error]: it leaves the view. *)
Definition cancel_booking_route (user_id booking_id : Z) (d : db) : db * response :=
  match (bind_parameter booking_id ;; bind_parameter user_id ;;
         cancel_booking_try user_id booking_id)%tx d with
  | inr (f, d') => (d', Redirect "bookings" f)
  | inl e =>
    if is_sqlite3_Error e
    then (d, Redirect "bookings"
               (Flash "Error cancelling booking. Please try again." "error"))
    else (d, InternalServerError e)
  end.

(** The booking [booking_id] exists and belongs to [user_id]. *)
Definition owns (d : db) (user_id booking_id : Z) : Prop :=
  exists b, In b (bookings d) /\ b_id b = booking_id /\ b_user_id b = user_id.

(** Sample data: two rooms, a booking of user 7 and one of user 8. *)
Definition two_bookings : db :=
  mkDb [ mkRoom 1 "101" "Standard Single" 1 100%Q "Wi-Fi, TV, AC" "occupied";
         mkRoom 2 "102" "Standard Single" 1 100%Q "Wi-Fi, TV, AC" "occupied" ]
       [ mkBooking 1 7 1 "2024-03-01" "2024-03-03" 200%Q "confirmed" 1 ""
           "2024-02-01 10:00:00";
         mkBooking 2 8 2 "2024-03-01" "2024-03-02" 100%Q "confirmed" 1 ""
           "2024-02-02 10:00:00" ].

(** *** Facts about [cancel_booking] *)

Lemma select_own_booking_None d booking_id user_id :
  select_own_booking d booking_id user_id = None <-> ~ owns d user_id booking_id.
Proof.
  unfold select_own_booking, owns. split.
  - intros F (b & Hb & Ei & Eu).
    apply (find_none _ _ F) in Hb. rewrite Ei, Eu, !Z.eqb_refl in Hb. discriminate.
  - intros N. destruct (find _ _) as [b|] eqn:F; [|reflexivity].
    exfalso. apply N. apply find_some in F as [Hb E].
    apply andb_true_iff in E as [Ei Eu]. exists b.
    apply Z.eqb_eq in Ei, Eu. auto.
Qed.

Lemma cancel_booking_unowned user_id booking_id d :
  select_own_booking d booking_id user_id = None ->
  cancel_booking user_id booking_id d
  = (d, Redirect "bookings" (Flash "Booking not found!" "error")).
Proof.
  intros F. unfold cancel_booking, cancel_booking_try, bind, get. now rewrite F.
Qed.

(** Within 64 bits the route is [cancel_booking]. *)
Lemma cancel_booking_route_in_range user_id booking_id d :
  int64 booking_id = true -> int64 user_id = true ->
  cancel_booking_route user_id booking_id d = cancel_booking user_id booking_id d.
Proof.
  intros Hb Hu. unfold cancel_booking_route, cancel_booking, bind, bind_parameter.
  now rewrite Hb, Hu.
Qed.

(** When no booking has the given id and the user of the session as its
    owner, the route leaves the database, bookings and rooms alike, as it
    was; it flashes that the booking was not found when the ids fit 64 bits,
    and ends in [OverflowError] otherwise. *)
Lemma cancel_booking_route_unowned user_id booking_id d :
  ~ owns d user_id booking_id ->
  cancel_booking_route user_id booking_id d
  = (d, if int64 booking_id && int64 user_id
        then Redirect "bookings" (Flash "Booking not found!" "error")
        else InternalServerError OverflowError).
Proof.
  intros N. destruct (int64 booking_id) eqn:Hb; [destruct (int64 user_id) eqn:Hu|].
  - rewrite (cancel_booking_route_in_range _ _ _ Hb Hu).
    apply cancel_booking_unowned. now apply select_own_booking_None.
  - unfold cancel_booking_route, bind, bind_parameter. now rewrite Hb, Hu.
  - unfold cancel_booking_route, bind, bind_parameter. now rewrite Hb.
Qed.

(** C10, the failing input.  No booking has the id 2^63, yet the request
    for it is not answered with the not found message: binding the id
    raises [OverflowError], which [except sqlite3.Error] does not catch,
    and the view ends in an internal server error.  The database is left
    as it was. *)
Lemma huge_booking_id_is_server_error :
  ~ owns two_bookings 7 (2 ^ 63) /\
  cancel_booking_route 7 (2 ^ 63) two_bookings
  = (two_bookings, InternalServerError OverflowError) /\
  cancel_booking_route 7 (2 ^ 63 - 1) two_bookings
  = (two_bookings, Redirect "bookings" (Flash "Booking not found!" "error")).
Proof.
  split; [apply select_own_booking_None; reflexivity|]. split; reflexivity.
Qed.

(** The owner's own booking is cancelled and its room freed. *)
Example cancel_own_booking :
  let d' := fst (cancel_booking 7 1 two_bookings) in
  map b_status (bookings d') = ["cancelled"; "confirmed"] /\
  map r_status (rooms d') = ["available"; "occupied"] /\
  snd (cancel_booking 7 1 two_bookings)
  = Redirect "bookings" (Flash "Booking cancelled successfully!" "success").
Proof. repeat split. Qed.

End Hotel.

(** ** Calendar dates of Python's [datetime] *)

Module PyDate.

(** [datetime.date]: its fields, as [date(year, month, day)] checks them. *)
Record date : Type := mkDate {
  year : Z;
  month : Z;
  day : Z
}.

(** [a < b] on dates: the order of the triples (year, month, day). *)
Definition date_ltb (a b : date) : bool :=
  (year a <? year b)
  || ((year a =? year b)
      && ((month a <? month b)
          || ((month a =? month b) && (day a <? day b)))).

Definition date_lt (a b : date) : Prop :=
  year a < year b
  \/ (year a = year b
      /\ (month a < month b \/ (month a = month b /\ day a < day b))).

Definition is_leap (y : Z) : bool :=
  (y mod 4 =? 0) && (negb (y mod 100 =? 0) || (y mod 400 =? 0)).

Definition days_in_month (y m : Z) : Z :=
  if m =? 2 then (if is_leap y then 29 else 28)
  else if member_Z m [4; 6; 9; 11] then 30 else 31.

Definition valid_date (d : date) : bool :=
  (1 <=? year d) && (year d <=? 9999)
  && (1 <=? month d) && (month d <=? 12)
  && (1 <=? day d) && (day d <=? days_in_month (year d) (month d)).

(** Days before the first of January of year [y], and before the first of
    month [m] in year [y]. *)
Definition days_before_year (y : Z) : Z :=
  let p := y - 1 in p * 365 + p / 4 - p / 100 + p / 400.

Definition days_before_month (y m : Z) : Z :=
  fold_right (fun k acc => days_in_month y k + acc) 0
             (map Z.of_nat (seq 1 (Z.to_nat (m - 1)))).

(** [date.toordinal()]: 1 for 0001-01-01. *)
Definition toordinal (d : date) : Z :=
  days_before_year (year d) + days_before_month (year d) (month d) + day d.

(** [datetime.datetime], without the fields nothing here reads. *)
Record datetime : Type := mkDatetime {
  dt_date : date;       (* .date() *)
  dt_hour : Z;
  dt_minute : Z;
  dt_second : Z
}.

(** Reading decimal fields. *)
Definition digit (c : Ascii.ascii) : option Z :=
  let n := Z.of_nat (Ascii.nat_of_ascii c) in
  if (48 <=? n) && (n <=? 57) then Some (n - 48) else None.

(** [number n s]: the value of the first [n] characters of [s], all of them
    digits, and what follows them. *)
Fixpoint number_from (n : nat) (acc : Z) (s : string) : option (Z * string) :=
  match n with
  | O => Some (acc, s)
  | S n' =>
    match s with
    | String c s' =>
      match digit c with
      | Some v => number_from n' (10 * acc + v) s'
      | None => None
      end
    | EmptyString => None
    end
  end.

Definition number (n : nat) (s : string) : option (Z * string) := number_from n 0 s.

(** [expect c s]: [s] without its first character, which is [c]. *)
Definition expect (c : Ascii.ascii) (s : string) : option string :=
  match s with
  | String c' s' => if Ascii.eqb c c' then Some s' else None
  | EmptyString => None
  end.

Definition and_then {A B} (o : option A) (k : A -> option B) : option B :=
  match o with
  | Some a => k a
  | None => None
  end.

(** [YYYY-MM-DD] at the start of [s]. *)
Definition read_date (s : string) : option (date * string) :=
  and_then (number 4 s) (fun '(y, s) =>
  and_then (expect "-"%char s) (fun s =>
  and_then (number 2 s) (fun '(m, s) =>
  and_then (expect "-"%char s) (fun s =>
  and_then (number 2 s) (fun '(d, s) =>
  let dt := mkDate y m d in
  if valid_date dt then Some (dt, s) else None))))).

(** [HH:MM:SS], the whole of [s]. *)
Definition read_time (s : string) : option (Z * Z * Z) :=
  and_then (number 2 s) (fun '(h, s) =>
  and_then (expect ":"%char s) (fun s =>
  and_then (number 2 s) (fun '(mi, s) =>
  and_then (expect ":"%char s) (fun s =>
  and_then (number 2 s) (fun '(se, s) =>
  match s with
  | EmptyString =>
    if (h <? 24) && (mi <? 60) && (se <? 60) then Some (h, mi, se) else None
  | _ => None
  end))))).

(** [datetime.fromisoformat] on the two forms the task manager writes,
    [YYYY-MM-DD] and [YYYY-MM-DDTHH:MM:SS]; [None] stands for [ValueError].
    The library function accepts more forms (fractions of a second, offsets);
    [is_overdue] below takes the parser as an argument for that reason. *)
Definition fromisoformat (s : string) : option datetime :=
  and_then (read_date s) (fun '(d, rest) =>
  match rest with
  | EmptyString => Some (mkDatetime d 0 0 0)
  | String _ time =>
    and_then (read_time time) (fun '(h, mi, se) => Some (mkDatetime d h mi se))
  end).

(** The days of a year, and the day a leap year adds to the months after
    February. *)
Definition days_in_year (y : Z) : Z := if is_leap y then 366 else 365.

Definition leap_day (y : Z) : Z := if is_leap y then 1 else 0.

(** *** Facts about the calendar *)

Lemma days_before_year_succ y :
  days_before_year (y + 1) = days_before_year y + days_in_year y.
Proof.
  unfold days_before_year, days_in_year, is_leap.
  replace (y + 1 - 1) with y by lia.
  destruct (Z.eqb_spec (y mod 4) 0) as [E4|N4];
  destruct (Z.eqb_spec (y mod 100) 0) as [E100|N100];
  destruct (Z.eqb_spec (y mod 400) 0) as [E400|N400]; cbn [negb andb orb];
  Z.div_mod_to_equations; lia.
Qed.

Lemma days_before_year_mono y n :
  0 <= n -> days_before_year y + 365 * n <= days_before_year (y + n).
Proof.
  intros Hn. revert n Hn. apply natlike_ind.
  - replace (y + 0) with y by lia. lia.
  - intros n Hn IH. replace (y + Z.succ n) with (y + n + 1) by lia.
    rewrite days_before_year_succ. unfold days_in_year.
    destruct (is_leap (y + n)); lia.
Qed.

Lemma month_cases m : 1 <= m <= 12 ->
  m = 1 \/ m = 2 \/ m = 3 \/ m = 4 \/ m = 5 \/ m = 6 \/
  m = 7 \/ m = 8 \/ m = 9 \/ m = 10 \/ m = 11 \/ m = 12.
Proof. lia. Qed.

(** Days before each month, and in it, as a table. *)
Lemma month_table y m : 1 <= m <= 12 ->
  (m = 1 /\ days_before_month y m = 0 /\ days_in_month y m = 31) \/
  (m = 2 /\ days_before_month y m = 31 /\ days_in_month y m = 28 + leap_day y) \/
  (m = 3 /\ days_before_month y m = 59 + leap_day y /\ days_in_month y m = 31) \/
  (m = 4 /\ days_before_month y m = 90 + leap_day y /\ days_in_month y m = 30) \/
  (m = 5 /\ days_before_month y m = 120 + leap_day y /\ days_in_month y m = 31) \/
  (m = 6 /\ days_before_month y m = 151 + leap_day y /\ days_in_month y m = 30) \/
  (m = 7 /\ days_before_month y m = 181 + leap_day y /\ days_in_month y m = 31) \/
  (m = 8 /\ days_before_month y m = 212 + leap_day y /\ days_in_month y m = 31) \/
  (m = 9 /\ days_before_month y m = 243 + leap_day y /\ days_in_month y m = 30) \/
  (m = 10 /\ days_before_month y m = 273 + leap_day y /\ days_in_month y m = 31) \/
  (m = 11 /\ days_before_month y m = 304 + leap_day y /\ days_in_month y m = 30) \/
  (m = 12 /\ days_before_month y m = 334 + leap_day y /\ days_in_month y m = 31).
Proof.
  intros Hm. unfold leap_day.
  destruct (month_cases m Hm) as [->|[->|[->|[->|[->|[->|[->|[->|[->|[->|[->| ->]]]]]]]]]]];
    cbv [days_before_month days_in_month member_Z existsb Z.eqb Pos.eqb Z.sub Z.add
         Z.opp Z.pos_sub Z.succ_double Z.pred_double Z.double Pos.pred_double
         Z.to_nat Pos.to_nat Pos.iter_op Init.Nat.add seq map fold_right Z.of_nat
         Pos.of_succ_nat Pos.succ orb];
    destruct (is_leap y); tauto.
Qed.

Lemma valid_date_bounds d : valid_date d = true ->
  1 <= year d <= 9999 /\ 1 <= month d <= 12 /\
  1 <= day d <= days_in_month (year d) (month d).
Proof.
  unfold valid_date. rewrite !andb_true_iff, !Z.leb_le. lia.
Qed.

(** The day of a valid date within its year. *)
Lemma day_of_year_bounds d : valid_date d = true ->
  1 <= days_before_month (year d) (month d) + day d <= days_in_year (year d).
Proof.
  intros V. apply valid_date_bounds in V as (_ & Hm & Hd).
  pose proof (month_table (year d) (month d) Hm) as T.
  unfold days_in_year, leap_day in *. destruct (is_leap (year d)); lia.
Qed.

Lemma toordinal_lt a b :
  valid_date a = true -> valid_date b = true ->
  date_lt a b -> toordinal a < toordinal b.
Proof.
  intros Va Vb L. unfold toordinal.
  pose proof (day_of_year_bounds a Va) as Da.
  pose proof (day_of_year_bounds b Vb) as Db.
  destruct L as [Hy|[Ey [Hm|[Em Hd]]]].
  - pose proof (days_before_year_mono (year a + 1) (year b - (year a + 1))
                  ltac:(lia)) as M.
    replace (year a + 1 + (year b - (year a + 1))) with (year b) in M by lia.
    rewrite days_before_year_succ in M. lia.
  - rewrite Ey in *.
    apply valid_date_bounds in Va as (_ & Hma & Hda).
    apply valid_date_bounds in Vb as (_ & Hmb & Hdb).
    rewrite Ey in *.
    pose proof (month_table (year b) (month a) Hma) as Ta.
    pose proof (month_table (year b) (month b) Hmb) as Tb.
    unfold leap_day in *. destruct (is_leap (year b)); lia.
  - rewrite Ey, Em. lia.
Qed.

Lemma date_lt_cases a b : date_lt a b \/ a = b \/ date_lt b a.
Proof.
  destruct a as [ya ma da], b as [yb mb db]. unfold date_lt. cbn [year month day].
  destruct (Z.lt_trichotomy ya yb) as [?|[->|?]]; [lia| |lia].
  destruct (Z.lt_trichotomy ma mb) as [?|[->|?]]; [lia| |lia].
  destruct (Z.lt_trichotomy da db) as [?|[->|?]]; [lia| |lia].
  right. now left.
Qed.

Lemma toordinal_lt_iff a b :
  valid_date a = true -> valid_date b = true ->
  (date_lt a b <-> toordinal a < toordinal b).
Proof.
  intros Va Vb. split; [now apply toordinal_lt|].
  intros L. destruct (date_lt_cases a b) as [H|[->|H]]; [exact H|lia|].
  apply (toordinal_lt b a Vb Va) in H. lia.
Qed.

Lemma fromisoformat_valid s dt :
  fromisoformat s = Some dt -> valid_date (dt_date dt) = true.
Proof.
  unfold fromisoformat, read_date, and_then.
  destruct (number 4 s) as [[y s1]|]; [|discriminate].
  destruct (expect "-" s1) as [s2|]; [|discriminate].
  destruct (number 2 s2) as [[m s3]|]; [|discriminate].
  destruct (expect "-" s3) as [s4|]; [|discriminate].
  destruct (number 2 s4) as [[d s5]|]; [|discriminate].
  destruct (valid_date (mkDate y m d)) eqn:V; [|discriminate].
  destruct s5 as [|c time].
  - intros [= <-]. exact V.
  - destruct (read_time time) as [[[h mi] se]|]; [|discriminate].
    intros [= <-]. exact V.
Qed.

End PyDate.

(** ** 001 Task management desktop app *)

Module TaskApp.

Import PyDate.

Inductive Status : Type := PENDING | IN_PROGRESS | COMPLETED.

Definition Status_value (s : Status) : string :=
  match s with
  | PENDING => "Pending"
  | IN_PROGRESS => "In Progress"
  | COMPLETED => "Completed"
  end.

(** The [Task] dataclass (app.py, 31-41). *)
Record Task : Type := mkTask {
  task_id : string;
  title : string;
  description : string;
  due_date : string;     (* ISO format date string *)
  priority : string;
  status : string;
  created_date : string;
  updated_date : string;
  category : string
}.

(** [Task.is_overdue] (app.py, 50-57).  [parse] is
    [datetime.fromisoformat], [None] when it raises; [today] is
    [date.today()].  The bare [except] turns every failure into [False]. *)
Definition is_overdue (parse : string -> option datetime) (today : date)
    (t : Task) : bool :=
  if String.eqb (status t) (Status_value COMPLETED) then false
  else
    match parse (due_date t) with
    | Some due => date_ltb (dt_date due) today
    | None => false
    end.

(** [TaskManager.get_overdue_tasks] (app.py, 99-100). *)
Definition get_overdue_tasks (parse : string -> option datetime) (today : date)
    (tasks : list Task) : list Task :=
  filter (is_overdue parse today) tasks.

(** Sample data. *)
Definition report (due status : string) : Task :=
  mkTask "t1" "Write report" "" due "High" status
         "2024-05-01T09:00:00" "2024-05-01T09:00:00" "General".

(** [Task.days_until_due] (app.py, 59-65): the difference of two dates in
    days; [None] when the due date does not parse. *)
Definition days_until_due (parse : string -> option datetime) (today : date)
    (t : Task) : option Z :=
  match parse (due_date t) with
  | Some due => Some (toordinal (dt_date due) - toordinal today)
  | None => None
  end.

(** [Task.to_dict] (app.py, 43-44): [asdict], a dict with one key for each
    field, here with its items in the order of the fields. *)
Definition to_dict (t : Task) : list (string * string) :=
  [ ("id", task_id t); ("title", title t); ("description", description t);
    ("due_date", due_date t); ("priority", priority t); ("status", status t);
    ("created_date", created_date t); ("updated_date", updated_date t);
    ("category", category t) ].

(** [data[key]], if the key is there. *)
Definition dict_get (key : string) (data : list (string * string)) : option string :=
  option_map snd (find (fun kv => String.eqb (fst kv) key) data).

Definition Task_fields : list string :=
  [ "id"; "title"; "description"; "due_date"; "priority"; "status";
    "created_date"; "updated_date"; "category" ].

(** [Task.from_dict] (app.py, 46-48): the class called with the items of
    [data] as keyword arguments, on a dict whose values are strings.  [None] stands for the [TypeError] of a key that is no
    field, or of a field without default that is missing; [category]
    defaults to ["General"]. *)
Definition from_dict (data : list (string * string)) : option Task :=
  if forallb (fun kv => member (fst kv) Task_fields) data then
    and_then (dict_get "id" data) (fun id =>
    and_then (dict_get "title" data) (fun title =>
    and_then (dict_get "description" data) (fun description =>
    and_then (dict_get "due_date" data) (fun due_date =>
    and_then (dict_get "priority" data) (fun priority =>
    and_then (dict_get "status" data) (fun status =>
    and_then (dict_get "created_date" data) (fun created_date =>
    and_then (dict_get "updated_date" data) (fun updated_date =>
    Some (mkTask id title description due_date priority status created_date
            updated_date
            (match dict_get "category" data with
             | Some category => category
             | None => "General"
             end))))))))))
  else None.

(** The fields of [Task] without a default value. *)
Definition required_fields : list string :=
  [ "id"; "title"; "description"; "due_date"; "priority"; "status";
    "created_date"; "updated_date" ].

(** A dict the class cannot be called with: it has a key that is no field
    of [Task], or it lacks a field without default. *)
Definition refused (data : list (string * string)) : Prop :=
  (exists key, In key (map fst data) /\ ~ In key Task_fields)
  \/ (exists field, In field required_fields /\ ~ In field (map fst data)).

(** [TaskManager] (app.py, 68-117), as functions on its list [self.tasks].
    Each of [add_task], [update_task] and [delete_task] then writes the list
    to the data file with [save_tasks]. *)
Definition add_task (task : Task) (tasks : list Task) : list Task :=
  tasks ++ [task].

(** The list after the call, and the boolean the method returns. *)
Fixpoint update_task (id : string) (updated_task : Task) (tasks : list Task)
    : list Task * bool :=
  match tasks with
  | [] => ([], false)
  | task :: rest =>
    if String.eqb (task_id task) id then (updated_task :: rest, true)
    else let (rest', found) := update_task id updated_task rest in
         (task :: rest', found)
  end.

Definition delete_task (id : string) (tasks : list Task) : list Task :=
  filter (fun task => negb (String.eqb (task_id task) id)) tasks.

Definition get_task (id : string) (tasks : list Task) : option Task :=
  find (fun task => String.eqb (task_id task) id) tasks.

(** [save_tasks] and [load_tasks] (app.py, 102-117).  The data file holds
    the JSON list of the dicts of the tasks; [None] is a file that does not
    exist.  Any exception while loading leaves the empty list. *)
Definition save_tasks (tasks : list Task) : list (list (string * string)) :=
  map to_dict tasks.

Fixpoint from_dicts (data : list (list (string * string))) : option (list Task) :=
  match data with
  | [] => Some []
  | task_data :: data' =>
    and_then (from_dict task_data) (fun task =>
    and_then (from_dicts data') (fun tasks => Some (task :: tasks)))
  end.

Definition load_tasks (data_file : option (list (list (string * string))))
    : list Task :=
  match data_file with
  | None => []
  | Some data =>
    match from_dicts data with
    | Some tasks => tasks
    | None => []
    end
  end.

(** The tags [refresh_task_list] gives the row of a task (app.py, 402-409). *)
Definition row_tags (parse : string -> option datetime) (today : date)
    (t : Task) : list string :=
  if String.eqb (status t) (Status_value COMPLETED) then ["completed"]
  else if is_overdue parse today t then ["overdue"]
  else
    match days_until_due parse today t with
    | Some days => if days <=? 1 then ["due_soon"] else []
    | None => []
    end.

(** The three numbers of the status bar (app.py, 425-429): total, completed
    and overdue tasks. *)
Definition status_counts (parse : string -> option datetime) (today : date)
    (tasks : list Task) : nat * nat * nat :=
  (List.length tasks,
   List.length (filter (fun t => String.eqb (status t) (Status_value COMPLETED)) tasks),
   List.length (get_overdue_tasks parse today tasks)).

(** *** Facts about [is_overdue] *)

Lemma date_ltb_lt a b : date_ltb a b = true <-> date_lt a b.
Proof.
  unfold date_ltb, date_lt.
  rewrite !orb_true_iff, !andb_true_iff, !orb_true_iff, !andb_true_iff.
  rewrite !Z.ltb_lt, !Z.eqb_eq. reflexivity.
Qed.

Lemma date_lt_irrefl a : ~ date_lt a a.
Proof. unfold date_lt. lia. Qed.

(** C7.  [is_overdue] answers true exactly when the status of the task is
    not Completed and its due date is read as a date strictly before today.
    Hence a task due today is not overdue, a completed task never is, and
    the overdue tasks are the tasks of the list for which this holds. *)
Theorem is_overdue_iff parse today t :
  (is_overdue parse today t = true <->
     status t <> "Completed" /\
     exists due, parse (due_date t) = Some due /\ date_lt (dt_date due) today)
  /\ (forall due, parse (due_date t) = Some due -> dt_date due = today ->
        is_overdue parse today t = false)
  /\ (status t = "Completed" -> is_overdue parse today t = false)
  /\ (forall tasks, In t (get_overdue_tasks parse today tasks) <->
        In t tasks /\ is_overdue parse today t = true).
Proof.
  assert (Hiff : is_overdue parse today t = true <->
     status t <> "Completed" /\
     exists due, parse (due_date t) = Some due /\ date_lt (dt_date due) today).
  { unfold is_overdue. cbn [Status_value].
    destruct (String.eqb_spec (status t) "Completed") as [E|N].
    - split; [discriminate | intros [C _]; contradiction].
    - destruct (parse (due_date t)) as [due|].
      + rewrite date_ltb_lt. split.
        * intros L. split; [exact N|]. now exists due.
        * intros (_ & due' & [= <-] & L). exact L.
      + split; [discriminate | intros (_ & due & E & _); discriminate]. }
  split; [exact Hiff|]. split; [|split].
  - intros due P E. apply not_true_is_false. intros O.
    apply Hiff in O as (_ & due' & P' & L).
    rewrite P in P'. injection P' as <-. rewrite E in L.
    exact (date_lt_irrefl _ L).
  - intros C. apply not_true_is_false. intros O.
    apply Hiff in O as (N & _). contradiction.
  - intros tasks. apply filter_In.
Qed.

(** The examples of the specification, with the parser of [PyDate]. *)
Example overdue_examples :
  let today := mkDate 2024 6 1 in
  is_overdue fromisoformat today (report "2024-05-30T00:00:00" "Pending") = true /\
  is_overdue fromisoformat today (report "2024-05-30T00:00:00" "Completed") = false /\
  is_overdue fromisoformat today (report "2024-06-01T00:00:00" "In Progress") = false /\
  is_overdue fromisoformat today (report "2024-06-02T00:00:00" "Pending") = false /\
  is_overdue fromisoformat today (report "next week" "Pending") = false.
Proof. repeat split. Qed.

(** *** More facts about tasks *)

Lemma find_app_first {A} (p : A -> bool) l1 l2 :
  find p (l1 ++ l2) = match find p l1 with Some x => Some x | None => find p l2 end.
Proof.
  induction l1 as [|x l1 IH]; [reflexivity|]. cbn [app find].
  now destruct (p x).
Qed.

(** X1.  [update_task] replaces the first task of the list that has the
    given id, and only that one, and returns True; when no task has the id
    it returns False and the list is what it was. *)
Theorem update_task_replaces_first id u tasks :
  match get_task id tasks with
  | None => update_task id u tasks = (tasks, false)
  | Some t =>
    exists before after,
      tasks = (before ++ t :: after)%list
      /\ (forall x, In x before -> task_id x <> id)
      /\ update_task id u tasks = ((before ++ u :: after)%list, true)
  end.
Proof.
  induction tasks as [|x tasks IH]; [reflexivity|].
  cbn [get_task find update_task]. fold (get_task id tasks).
  destruct (String.eqb_spec (task_id x) id) as [E|N].
  - exists [], tasks. repeat split. intros y [].
  - destruct (get_task id tasks) as [t|].
    + destruct IH as (before & after & -> & Hb & ->).
      exists (x :: before), after. repeat split.
      intros y [<-|Hy]; [exact N | now apply Hb].
    + now rewrite IH.
Qed.

(** X2.  After an [update_task] that returned True with a task that keeps
    the id, [get_task] on that id returns the new task. *)
Theorem get_task_after_update id u tasks :
  snd (update_task id u tasks) = true ->
  task_id u = id ->
  get_task id (fst (update_task id u tasks)) = Some u.
Proof.
  intros Hfound Hid. induction tasks as [|x tasks IH]; [discriminate|].
  cbn [update_task] in *.
  destruct (String.eqb_spec (task_id x) id) as [E|N].
  - cbn [fst get_task find]. now rewrite Hid, String.eqb_refl.
  - destruct (update_task id u tasks) as [rest' found] eqn:U.
    cbn [fst snd get_task find] in *.
    destruct (String.eqb_spec (task_id x) id) as [E'|_]; [contradiction|].
    now apply IH.
Qed.

Lemma get_task_after_update_witness :
  let tasks := [report "2024-05-30T00:00:00" "Pending"] in
  let done := report "2024-05-30T00:00:00" "Completed" in
  update_task "t1" done tasks = ([done], true) /\
  get_task "t1" (fst (update_task "t1" done tasks)) = Some done.
Proof.
  cbv zeta. split; [reflexivity|].
  apply (get_task_after_update "t1"); reflexivity.
Defined.

(** X3.  [delete_task] removes every task that has the given id and keeps
    the others in their order: afterwards [get_task] finds nothing under
    the id and what it found under any other id before; deleting an id that
    no task has changes nothing. *)
Theorem delete_task_removes_all id tasks :
  get_task id (delete_task id tasks) = None
  /\ (forall t, In t (delete_task id tasks) <-> In t tasks /\ task_id t <> id)
  /\ (forall id', id' <> id ->
        get_task id' (delete_task id tasks) = get_task id' tasks)
  /\ (get_task id tasks = None -> delete_task id tasks = tasks).
Proof.
  unfold delete_task, get_task. repeat split.
  - induction tasks as [|x tasks IH]; [reflexivity|]. cbn [filter].
    destruct (String.eqb_spec (task_id x) id) as [E|N]; cbn [negb]; [exact IH|].
    cbn [find]. now destruct (String.eqb_spec (task_id x) id).
  - now apply filter_In in H.
  - apply filter_In in H as [_ H].
    destruct (String.eqb_spec (task_id t) id); [discriminate | assumption].
  - intros [Hin N]. apply filter_In. split; [exact Hin|].
    now destruct (String.eqb_spec (task_id t) id).
  - intros id' N. induction tasks as [|x tasks IH]; [reflexivity|].
    cbn [filter find]. destruct (String.eqb_spec (task_id x) id) as [E|N'];
      cbn [negb find].
    + destruct (String.eqb_spec (task_id x) id') as [E'|_]; [congruence|exact IH].
    + now rewrite IH.
  - induction tasks as [|x tasks IH]; [reflexivity|]. cbn [filter find].
    destruct (String.eqb_spec (task_id x) id) as [E|N]; [discriminate|].
    intros F. cbn [negb]. now rewrite IH.
Qed.

(** X4.  [get_task] returns the first task with the id: after [add_task] it
    returns what it returned before when the id was in use, so a task added
    under an id that is already in use is not the one found; otherwise it
    returns the added task for its id and nothing for any other. *)
Theorem get_task_after_add id t tasks :
  get_task id (add_task t tasks)
  = match get_task id tasks with
    | Some x => Some x
    | None => if String.eqb (task_id t) id then Some t else None
    end.
Proof.
  unfold get_task, add_task. rewrite find_app_first. cbn [find].
  now destruct (String.eqb (task_id t) id).
Qed.

(** [is_overdue] in terms of [days_until_due], for dates of the calendar. *)
Lemma is_overdue_by_days parse today t :
  (forall s dt, parse s = Some dt -> valid_date (dt_date dt) = true) ->
  valid_date today = true ->
  is_overdue parse today t
  = negb (String.eqb (status t) "Completed")
    && match days_until_due parse today t with
       | Some days => days <? 0
       | None => false
       end.
Proof.
  intros Hparse Htoday. unfold is_overdue, days_until_due. cbn [Status_value].
  destruct (String.eqb (status t) "Completed"); [reflexivity|]. cbn [negb andb].
  destruct (parse (due_date t)) as [due|] eqn:P; [|reflexivity].
  apply eq_true_iff_eq.
  rewrite date_ltb_lt, (toordinal_lt_iff _ _ (Hparse _ _ P) Htoday), Z.ltb_lt. lia.
Qed.

(** X5.  For due dates and a today that are dates of the calendar, a task
    is overdue exactly when it is not Completed and [days_until_due] is
    negative. *)
Theorem is_overdue_iff_days_negative parse today t :
  (forall s dt, parse s = Some dt -> valid_date (dt_date dt) = true) ->
  valid_date today = true ->
  (is_overdue parse today t = true <->
     status t <> "Completed" /\
     exists days, days_until_due parse today t = Some days /\ days < 0).
Proof.
  intros Hparse Htoday. rewrite (is_overdue_by_days _ _ _ Hparse Htoday).
  rewrite andb_true_iff, negb_true_iff.
  destruct (String.eqb_spec (status t) "Completed") as [E|N].
  - split; [intros [C _]; discriminate | intros [C _]; contradiction].
  - destruct (days_until_due parse today t) as [days|].
    + split.
      * intros [_ L%Z.ltb_lt]. split; [exact N|]. now exists days.
      * intros (_ & days' & [= <-] & L). split; [reflexivity|]. now apply Z.ltb_lt.
    + split; [intros [_ C]; discriminate | intros (_ & days & C & _); discriminate].
Qed.

Lemma is_overdue_iff_days_negative_witness :
  let today := mkDate 2024 6 1 in
  let t := report "2024-05-30T00:00:00" "Pending" in
  days_until_due fromisoformat today t = Some (-2) /\
  (is_overdue fromisoformat today t = true <->
     status t <> "Completed" /\
     exists days, days_until_due fromisoformat today t = Some days /\ days < 0).
Proof.
  cbv zeta. split; [reflexivity|].
  apply (is_overdue_iff_days_negative fromisoformat (mkDate 2024 6 1));
    [exact fromisoformat_valid | reflexivity].
Defined.

(** X6.  For due dates and a today that are dates of the calendar, the row
    of a task is tagged completed exactly when its status is Completed,
    overdue exactly when the task is overdue, due_soon exactly when it is
    not Completed and due today or tomorrow, and is left without tag
    otherwise. *)
Theorem row_tags_cases parse today t :
  (forall s dt, parse s = Some dt -> valid_date (dt_date dt) = true) ->
  valid_date today = true ->
  (row_tags parse today t = ["completed"] <-> status t = "Completed")
  /\ (row_tags parse today t = ["overdue"] <-> is_overdue parse today t = true)
  /\ (row_tags parse today t = ["due_soon"] <->
        status t <> "Completed" /\
        exists days, days_until_due parse today t = Some days /\ 0 <= days <= 1)
  /\ (row_tags parse today t = [] <->
        status t <> "Completed" /\
        (days_until_due parse today t = None \/
         exists days, days_until_due parse today t = Some days /\ 1 < days)).
Proof.
  intros Hparse Htoday.
  pose proof (is_overdue_by_days parse today t Hparse Htoday) as O.
  unfold row_tags. cbn [Status_value]. rewrite O.
  destruct (String.eqb_spec (status t) "Completed") as [E|N]; cbn [negb andb].
  - repeat split; try discriminate; try tauto.
    all: intros [H _]; contradiction.
  - destruct (days_until_due parse today t) as [days|] eqn:D.
    + destruct (Z.ltb_spec days 0) as [L|G].
      * repeat split; try discriminate; try tauto.
        -- intros (_ & days' & [= <-] & H). lia.
        -- intros (_ & [H|(days' & [= <-] & H)]); [discriminate | lia].
      * destruct (Z.leb_spec days 1) as [L|G'].
        -- repeat split; try discriminate; try tauto.
           ++ exists days. split; [reflexivity|lia].
           ++ intros (_ & [H'|(days' & [= <-] & H')]); [discriminate | lia].
        -- repeat split; try discriminate; try tauto.
           ++ intros (_ & days' & [= <-] & H'). lia.
           ++ right. exists days. split; [reflexivity|lia].
    + repeat split; try discriminate; try tauto.
      intros (_ & days' & H' & _). discriminate.
Qed.

Lemma row_tags_cases_witness :
  let today := mkDate 2024 6 1 in
  map (fun t => row_tags fromisoformat today t)
      [ report "2024-05-30T00:00:00" "Completed";
        report "2024-05-30T00:00:00" "Pending";
        report "2024-06-01T00:00:00" "Pending";
        report "2024-06-02T00:00:00" "In Progress";
        report "2024-06-03T00:00:00" "Pending";
        report "someday" "Pending" ]
  = [ ["completed"]; ["overdue"]; ["due_soon"]; ["due_soon"]; []; [] ] /\
  (row_tags fromisoformat today (report "2024-06-02T00:00:00" "In Progress")
   = ["due_soon"] <->
   status (report "2024-06-02T00:00:00" "In Progress") <> "Completed" /\
   exists days,
     days_until_due fromisoformat today (report "2024-06-02T00:00:00" "In Progress")
     = Some days /\ 0 <= days <= 1).
Proof.
  cbv zeta. split; [reflexivity|].
  exact (proj1 (proj2 (proj2 (row_tags_cases fromisoformat (mkDate 2024 6 1)
           (report "2024-06-02T00:00:00" "In Progress")
           fromisoformat_valid eq_refl)))).
Defined.

Lemma disjoint_filters_length {A} (p q : A -> bool) l :
  (forall x, p x = true -> q x = false) ->
  (List.length (filter p l) + List.length (filter q l) <= List.length l)%nat.
Proof.
  intros D. induction l as [|x l IH]; [reflexivity|]. cbn [filter].
  destruct (p x) eqn:P.
  - rewrite (D x P). cbn [List.length]. lia.
  - destruct (q x); cbn [List.length]; lia.
Qed.

(** X7.  In the status bar no task is counted both as completed and as
    overdue: the two counts together never exceed the total. *)
Theorem status_counts_disjoint parse today tasks :
  let '(total, completed, overdue) := status_counts parse today tasks in
  (completed + overdue <= total)%nat.
Proof.
  unfold status_counts, get_overdue_tasks. apply disjoint_filters_length.
  intros t C. unfold is_overdue. now rewrite C.
Qed.

(** X8.  What [save_tasks] writes, [load_tasks] reads back as the same
    list of tasks: [from_dict] undoes [to_dict]. *)
Theorem load_tasks_after_save tasks :
  (forall t, from_dict (to_dict t) = Some t)
  /\ load_tasks (Some (save_tasks tasks)) = tasks.
Proof.
  assert (R : forall t, from_dict (to_dict t) = Some t) by (now intros []).
  split; [exact R|]. unfold load_tasks, save_tasks.
  assert (from_dicts (map to_dict tasks) = Some tasks) as ->; [|reflexivity].
  induction tasks as [|t tasks IH]; [reflexivity|].
  cbn [map from_dicts]. rewrite R, IH. reflexivity.
Qed.

Lemma from_dicts_None data :
  (exists task_data, In task_data data /\ from_dict task_data = None) ->
  from_dicts data = None.
Proof.
  intros (bad & Hin & Hbad). induction data as [|d data IH]; [destruct Hin|].
  cbn [from_dicts]. destruct Hin as [->|Hin].
  - now rewrite Hbad.
  - destruct (from_dict d); [|reflexivity]. cbn [and_then]. now rewrite IH.
Qed.

Lemma dict_get_None key data :
  dict_get key data = None <-> ~ In key (map fst data).
Proof.
  unfold dict_get. induction data as [|[k v] data IH]; cbn [find map fst In].
  - tauto.
  - destruct (String.eqb_spec k key) as [->|N]; cbn [option_map].
    + split; [discriminate | intros H; exfalso; apply H; now left].
    + rewrite IH. tauto.
Qed.

Lemma forallb_false_exists {A} (p : A -> bool) l :
  forallb p l = false -> exists x, In x l /\ p x = false.
Proof.
  induction l as [|x l IH]; cbn [forallb]; [discriminate|].
  destruct (p x) eqn:P; cbn [andb].
  - intros H. destruct (IH H) as (y & Hy & Py). exists y. split; [now right|exact Py].
  - intros _. exists x. split; [now left|exact P].
Qed.

Lemma member_true_In s l : member s l = true <-> In s l.
Proof.
  unfold member. rewrite existsb_exists. split.
  - intros (x & Hin & E). apply String.eqb_eq in E. now subst.
  - intros Hin. exists s. split; [exact Hin | apply String.eqb_refl].
Qed.

(** [from_dict] raises exactly on the dicts that are [refused]. *)
Lemma from_dict_None_iff data : from_dict data = None <-> refused data.
Proof.
  unfold from_dict, refused. split.
  - destruct (forallb _ data) eqn:F.
    + intros H. right.
      repeat match type of H with
             | and_then (dict_get ?k data) _ = None =>
               destruct (dict_get k data) eqn:?; cbn [and_then] in H;
                 [|exists k; split;
                    [cbn; tauto | now apply dict_get_None]]
             end.
      discriminate H.
    + intros _. left. apply forallb_false_exists in F as ([k v] & Hin & M).
      exists k. split; [exact (in_map fst _ _ Hin)|].
      intros Hk. apply member_true_In in Hk. cbn [fst] in M. congruence.
  - intros [(key & Hin & N)|(field & Hreq & N)].
    + assert (forallb (fun kv => member (fst kv) Task_fields) data = false) as ->;
        [|reflexivity].
      destruct (forallb _ data) eqn:F; [|reflexivity]. exfalso. apply N.
      apply in_map_iff in Hin as (kv & <- & Hkv). apply member_true_In.
      exact (proj1 (forallb_forall _ _) F kv Hkv).
    + destruct (forallb _ data); [|reflexivity].
      apply dict_get_None in N.
      repeat match goal with
             | |- and_then (dict_get ?k data) _ = None =>
               destruct (dict_get k data) eqn:?; cbn [and_then]; [|reflexivity]
             end.
      exfalso. cbn [required_fields In] in Hreq.
      repeat (destruct Hreq as [<-|Hreq]; [congruence|]). exact Hreq.
Qed.

(** X9.  One record of the data file that has a key that is no field of
    Task, or lacks a field other than category, makes [load_tasks] drop
    every task of the file: the list is empty.  Every other record is read
    as a task, with category General when the record has no category. *)
Theorem load_tasks_all_or_nothing data record :
  In record data ->
  (refused record -> load_tasks (Some data) = [])
  /\ (~ refused record ->
      exists t, from_dict record = Some t
                /\ (~ In "category" (map fst record) -> category t = "General")).
Proof.
  intros Hin. split.
  - intros R. unfold load_tasks. rewrite (from_dicts_None data); [reflexivity|].
    exists record. split; [exact Hin | now apply from_dict_None_iff].
  - intros NR. destruct (from_dict record) as [t|] eqn:F;
      [|exfalso; now apply NR, from_dict_None_iff].
    exists t. split; [reflexivity|]. intros NC. apply dict_get_None in NC.
    unfold from_dict in F. rewrite NC in F.
    destruct (forallb _ record); [|discriminate].
    repeat match type of F with
           | and_then (dict_get ?k record) _ = Some _ =>
             destruct (dict_get k record); cbn [and_then] in F; [|discriminate]
           end.
    now injection F as <-.
Qed.

Lemma load_tasks_all_or_nothing_witness :
  let good := report "2024-05-30T00:00:00" "Pending" in
  let data := [to_dict good; tl (to_dict good); to_dict good] in
  map fst (tl (to_dict good))
  = ["title"; "description"; "due_date"; "priority"; "status"; "created_date";
     "updated_date"; "category"] /\
  load_tasks (Some data) = [].
Proof.
  cbv zeta. split; [reflexivity|].
  apply (proj1 (load_tasks_all_or_nothing
                  [to_dict (report "2024-05-30T00:00:00" "Pending");
                   tl (to_dict (report "2024-05-30T00:00:00" "Pending"));
                   to_dict (report "2024-05-30T00:00:00" "Pending")]
                  (tl (to_dict (report "2024-05-30T00:00:00" "Pending")))
                  (or_intror (or_introl eq_refl)))).
  right. exists "id". split; [left; reflexivity|].
  cbn. intros H. repeat (destruct H as [H|H]; [discriminate H|]). exact H.
Defined.

End TaskApp.

(** ** 004 Library management system *)

Module Library.

Import PyDate.

Inductive BookStatus : Type :=
| AVAILABLE | BORROWED | RESERVED | MAINTENANCE | LOST | DAMAGED.

Definition BookStatus_value (s : BookStatus) : string :=
  match s with
  | AVAILABLE => "Available"
  | BORROWED => "Borrowed"
  | RESERVED => "Reserved"
  | MAINTENANCE => "Maintenance"
  | LOST => "Lost"
  | DAMAGED => "Damaged"
  end.

(** The [BorrowRecord] dataclass (app.py, 81-92). *)
Record BorrowRecord : Type := mkBorrowRecord {
  id : string;
  book_id : string;
  user_id : string;
  borrow_date : string;
  due_date : string;
  status : string;
  return_date : option string;
  extended_date : option string;
  late_fee : Q;
  notes : option string
}.

(** [BorrowRecord(id, book_id, user_id, borrow_date, due_date)] with the
    defaults of the dataclass. *)
Definition new_BorrowRecord (id book_id user_id borrow_date due_date : string)
    : BorrowRecord :=
  mkBorrowRecord id book_id user_id borrow_date due_date "Active" None None 0%Q None.

(** Rows of [books], [users] and [borrow_records], with the columns the two
    layouts of the repository share: [setup_database] (app.py, 126-207) adds
    six columns to books, four to users, and [extended_date] and [notes] to
    borrow_records; neither method below names any of them. *)
Record book : Type := mkBook {
  bk_id : string;
  bk_title : string;
  bk_author : string;
  bk_isbn : string;
  bk_category : string;
  bk_status : string;
  bk_location : string
}.

Record user : Type := mkUser {
  u_id : string;
  u_name : string;
  u_email : string;
  u_status : string;
  u_borrowed_books : Z
}.

Record borrow_row : Type := mkBorrowRow {
  br_id : string;
  br_book_id : string;
  br_user_id : string;
  br_borrow_date : string;
  br_due_date : string;
  br_return_date : option string;
  br_late_fee : Q;
  br_status : string
}.

Record store : Type := mkStore {
  books : list book;
  users : list user;
  borrow_records : list borrow_row
}.

(** What the layout of [library.db] decides for the two methods: how many
    columns borrow_records has, and the CHECK constraints on the two status
    columns.  The tables are created with [CREATE TABLE IF NOT EXISTS], so
    the layout is that of whichever script created the file first. *)
Record schema : Type := mkSchema {
  borrow_records_columns : nat;
  borrow_status_check : string -> bool;
  book_status_check : string -> bool
}.

(** The layout [DatabaseManager.setup_database] creates (app.py, 135-183):
    ten columns in borrow_records, no CHECK constraint. *)
Definition setup_database_schema : schema :=
  mkSchema 10 (fun _ => true) (fun _ => true).

(** The layout [init_db.py] creates: eight columns in borrow_records, in the
    order the INSERT of [add_borrow_record] supplies them, and lower-case
    status values.  (Its keys are INTEGER; they are compared as text here.) *)
Definition init_db_schema : schema :=
  mkSchema 8
    (fun s => member s ["borrowed"; "returned"; "overdue"])
    (fun s => member s ["available"; "borrowed"; "maintenance"]).

(** The eight columns of [init_db.py] without its CHECK constraints: the
    layout on which every statement of the two methods is accepted.  No
    script of the repository creates it. *)
Definition eight_column_schema : schema :=
  mkSchema 8 (fun _ => true) (fun _ => true).

(** What a method of [DatabaseManager] hands back to its caller. *)
Inductive result : Type :=
| Return (b : bool)
| Raises (e : exn).

(** [try: ...; conn.commit(); return True / except sqlite3.Error: return
    False / finally: conn.close()]. *)
Definition try_commit (s : store) (c : tx store unit) : store * result :=
  match c s with
  | inr (_, s') => (s', Return true)
  | inl e => (s, if is_sqlite3_Error e then Return false else Raises e)
  end.

(** [INSERT INTO borrow_records VALUES (?, ?, ?, ?, ?, ?, ?, ?)]: eight
    values, for a table that must have eight columns; [id] is the primary
    key; the CHECK on [status]. *)
Definition insert_borrow_record (sch : schema) (record : BorrowRecord)
    : tx store unit :=
  (s <- get ;;
   require (Nat.eqb (borrow_records_columns sch) 8) OperationalError ;;
   require (negb (member (id record) (map br_id (borrow_records s)))) IntegrityError ;;
   require (borrow_status_check sch (status record)) IntegrityError ;;
   put (mkStore (books s) (users s)
          (borrow_records s ++
           [mkBorrowRow (id record) (book_id record) (user_id record)
              (borrow_date record) (due_date record) (return_date record)
              (late_fee record) (status record)])))%tx.

Definition set_book_status (status : string) (b : book) : book :=
  mkBook (bk_id b) (bk_title b) (bk_author b) (bk_isbn b) (bk_category b)
         status (bk_location b).

(** [UPDATE books SET status = ? WHERE id = ?]. *)
Definition update_book_status (sch : schema) (status book_id : string)
    : tx store unit :=
  fun s =>
    match update_where (fun b => String.eqb (bk_id b) book_id)
            (set_book_status status)
            (fun b => book_status_check sch (bk_status b)) (books s) with
    | inr books' => inr (tt, mkStore books' (users s) (borrow_records s))
    | inl e => inl e
    end.

Definition add_borrowed_books (n : Z) (user_id : string) (u : user) : user :=
  if String.eqb (u_id u) user_id
  then mkUser (u_id u) (u_name u) (u_email u) (u_status u) (u_borrowed_books u + n)
  else u.

(** [UPDATE users SET borrowed_books = borrowed_books + n WHERE id = ?]. *)
Definition update_borrowed_books (n : Z) (user_id : string) : tx store unit :=
  (s <- get ;;
   put (mkStore (books s) (map (add_borrowed_books n user_id) (users s))
                (borrow_records s)))%tx.

(** [DatabaseManager.add_borrow_record] (app.py, 262-282). *)
Definition add_borrow_record (sch : schema) (record : BorrowRecord) (s : store)
    : store * result :=
  try_commit s
    (insert_borrow_record sch record ;;
     (* Update book status *)
     update_book_status sch (BookStatus_value BORROWED) (book_id record) ;;
     (* Update user's borrowed books count *)
     update_borrowed_books 1 (user_id record))%tx.

(** [SELECT book_id, user_id FROM borrow_records WHERE id = ?], [fetchone()]. *)
Definition select_borrow_record (s : store) (record_id : string)
    : option borrow_row :=
  find (fun r => String.eqb (br_id r) record_id) (borrow_records s).

Definition close_borrow_row (return_date : string) (late_fee : Q) (r : borrow_row)
    : borrow_row :=
  mkBorrowRow (br_id r) (br_book_id r) (br_user_id r) (br_borrow_date r)
              (br_due_date r) (Some return_date) late_fee "Returned".

(** [UPDATE borrow_records SET return_date = ?, late_fee = ?,
     status = 'Returned' WHERE id = ?]. *)
Definition update_borrow_record (sch : schema) (record_id return_date : string)
    (late_fee : Q) : tx store unit :=
  fun s =>
    match update_where (fun r => String.eqb (br_id r) record_id)
            (close_borrow_row return_date late_fee)
            (fun r => borrow_status_check sch (br_status r)) (borrow_records s) with
    | inr records' => inr (tt, mkStore (books s) (users s) records')
    | inl e => inl e
    end.

(** [DatabaseManager.return_book] (app.py, 284-313).  Unpacking the row
    raises [TypeError] when [fetchone()] found none; [late_fee] is an
    argument of the method ([0.0] when the caller gives none). *)
Definition return_book (sch : schema) (record_id return_date : string)
    (late_fee : Q) (s : store) : store * result :=
  try_commit s
    (s0 <- get ;;
     (* Get the record details first *)
     match select_borrow_record s0 record_id with
     | None => raise TypeError
     | Some row =>
       (* Update the borrow record *)
       update_borrow_record sch record_id return_date late_fee ;;
       (* Update book status *)
       update_book_status sch (BookStatus_value AVAILABLE) (br_book_id row) ;;
       (* Update user's borrowed books count *)
       update_borrowed_books (-1) (br_user_id row)
     end)%tx.

Definition default_late_fee : Q := 0%Q.

(** What the committed statements of the two methods leave behind. *)
Definition lent (record : BorrowRecord) (s : store) : store :=
  mkStore
    (map (fun b => if String.eqb (bk_id b) (book_id record)
                   then set_book_status "Borrowed" b else b) (books s))
    (map (add_borrowed_books 1 (user_id record)) (users s))
    (borrow_records s ++
     [mkBorrowRow (id record) (book_id record) (user_id record)
        (borrow_date record) (due_date record) (return_date record)
        (late_fee record) (status record)]).

Definition closed (record_id return_date : string) (late_fee : Q)
    (row : borrow_row) (s : store) : store :=
  mkStore
    (map (fun b => if String.eqb (bk_id b) (br_book_id row)
                   then set_book_status "Available" b else b) (books s))
    (map (add_borrowed_books (-1) (br_user_id row)) (users s))
    (map (fun r => if String.eqb (br_id r) record_id
                   then close_borrow_row return_date late_fee r else r)
         (borrow_records s)).

(** Whether the statements of each method are all accepted. *)
Definition has_book (s : store) (book_id : string) : bool :=
  existsb (fun b => String.eqb (bk_id b) book_id) (books s).

Definition lending_accepted (sch : schema) (record : BorrowRecord) (s : store)
    : bool :=
  Nat.eqb (borrow_records_columns sch) 8
  && negb (member (id record) (map br_id (borrow_records s)))
  && borrow_status_check sch (status record)
  && (negb (has_book s (book_id record)) || book_status_check sch "Borrowed").

Definition closing_accepted (sch : schema) (row : borrow_row) (s : store) : bool :=
  borrow_status_check sch "Returned"
  && (negb (has_book s (br_book_id row)) || book_status_check sch "Available").

(** The formula of the specification for the late fee, for comparison with
    what [return_book] stores: [max(0, daysBetween(dueDate, returnDate)) *
    dailyRate], in calendar days. *)
Definition daysBetween (dueDate returnDate : date) : Z :=
  toordinal returnDate - toordinal dueDate.

Definition computeLateFee_spec (dueDate returnDate : date) (dailyRate : Q) : Q :=
  (inject_Z (Z.max 0 (daysBetween dueDate returnDate)) * dailyRate)%Q.

(** Sample data: one book, one member, one loan of that book. *)
Definition shelf (book_status loan_status : string) (returned : option string)
    (fee : Q) (count : Z) : store :=
  mkStore
    [mkBook "B1" "The Hobbit" "J.R.R. Tolkien" "9780547928227" "Fantasy"
       book_status "Section B-1"]
    [mkUser "U1" "John Doe" "john@example.com" "Active" count;
     mkUser "U2" "Jane Smith" "jane@example.com" "Active" 0]
    [mkBorrowRow "L1" "B1" "U1" "2024-01-01" "2024-01-10" returned fee loan_status].

Definition on_loan : store := shelf "Borrowed" "Active" None 0%Q 1.

Definition given_back : store := shelf "Available" "Returned" (Some "2024-01-13") 6%Q 0.

Definition second_loan : BorrowRecord :=
  new_BorrowRecord "L2" "B1" "U2" "2024-01-05" "2024-01-19".


(** The columns of books and users that neither method writes. *)
Definition book_columns (b : book) : string * string * string * string * string * string :=
  (bk_id b, bk_title b, bk_author b, bk_isbn b, bk_category b, bk_location b).

Definition user_columns (u : user) : string * string * string * string :=
  (u_id u, u_name u, u_email u, u_status u).

(** *** Facts about the two methods *)

Lemma forallb_unless {R} (matches : R -> bool) (c : bool) rows :
  forallb (fun r => negb (matches r) || c) rows = negb (existsb matches rows) || c.
Proof.
  induction rows as [|r rows IH]; [reflexivity|].
  cbn [forallb existsb]. rewrite IH.
  now destruct (matches r), (existsb matches rows), c.
Qed.

Lemma update_where_const {R} (matches : R -> bool) (set : R -> R)
    (check : R -> bool) (c : bool) rows :
  (forall r, check (set r) = c) ->
  update_where matches set check rows
  = if negb (existsb matches rows) || c
    then inr (map (fun r => if matches r then set r else r) rows)
    else inl IntegrityError.
Proof.
  intros Hc. unfold update_where. rewrite <- forallb_unless.
  replace (forallb (fun r => negb (matches r) || check (set r)) rows)
    with (forallb (fun r => negb (matches r) || c) rows); [reflexivity|].
  induction rows as [|r rows IH]; [reflexivity|].
  cbn [forallb]. now rewrite IH, Hc.
Qed.

Lemma find_existsb {R} (p : R -> bool) rows r :
  find p rows = Some r -> existsb p rows = true.
Proof.
  intros F. apply find_some in F as [Hin Hp]. apply existsb_exists. now exists r.
Qed.

(** [add_borrow_record] in one equation. *)
Lemma add_borrow_record_eq sch record s :
  add_borrow_record sch record s
  = if lending_accepted sch record s
    then (lent record s, Return true)
    else (s, Return false).
Proof.
  unfold add_borrow_record, try_commit, insert_borrow_record, update_book_status,
    update_borrowed_books, lending_accepted, has_book, bind, get, put, require.
  destruct (Nat.eqb (borrow_records_columns sch) 8); [|reflexivity].
  destruct (member (id record) (map br_id (borrow_records s))); [reflexivity|].
  destruct (borrow_status_check sch (status record)); [|reflexivity].
  cbn [negb andb ret raise books users borrow_records BookStatus_value].
  rewrite (update_where_const _ _ _ (book_status_check sch "Borrowed"))
    by reflexivity.
  now destruct (negb _ || _).
Qed.

(** [return_book] in one equation. *)
Lemma return_book_eq sch record_id return_date late_fee s :
  return_book sch record_id return_date late_fee s
  = match select_borrow_record s record_id with
    | None => (s, Raises TypeError)
    | Some row =>
      if closing_accepted sch row s
      then (closed record_id return_date late_fee row s, Return true)
      else (s, Return false)
    end.
Proof.
  unfold return_book, try_commit, bind, get.
  destruct (select_borrow_record s record_id) as [row|] eqn:F; [|reflexivity].
  unfold update_borrow_record, update_book_status, update_borrowed_books,
    closing_accepted, has_book, bind, get, put.
  rewrite (update_where_const _ _ _ (borrow_status_check sch "Returned"))
    by reflexivity.
  unfold select_borrow_record in F. rewrite (find_existsb _ _ _ F).
  cbn [negb orb]. destruct (borrow_status_check sch "Returned"); [|reflexivity].
  cbn [andb books users borrow_records BookStatus_value].
  rewrite (update_where_const _ _ _ (book_status_check sch "Available"))
    by reflexivity.
  now destruct (negb _ || _).
Qed.

Lemma existsb_after_map {A B} (f : A -> B) (p : B -> bool) l :
  existsb p (map f l) = existsb (fun a => p (f a)) l.
Proof. induction l as [|a l IH]; [reflexivity|]. cbn. now rewrite IH. Qed.

(** On the layout [setup_database] creates, the INSERT of eight values into
    the table of ten columns is refused: no loan is ever recorded. *)
Lemma add_borrow_record_setup_database record s :
  add_borrow_record setup_database_schema record s = (s, Return false).
Proof. now rewrite add_borrow_record_eq. Qed.

(** On the layout of [init_db.py] the status Borrowed fails the CHECK on
    books: no loan of a book of the table is ever recorded. *)
Lemma add_borrow_record_init_db record s :
  has_book s (book_id record) = true ->
  add_borrow_record init_db_schema record s = (s, Return false).
Proof.
  intros H. rewrite add_borrow_record_eq. unfold lending_accepted. rewrite H.
  cbn [negb orb init_db_schema book_status_check member existsb].
  now rewrite !andb_false_r.
Qed.

Lemma return_book_unknown_record sch record_id return_date late_fee s :
  select_borrow_record s record_id = None ->
  return_book sch record_id return_date late_fee s = (s, Raises TypeError).
Proof. intros F. now rewrite return_book_eq, F. Qed.

(** *** The claims on the library *)

(** C4, the failing input.  On the layout the application creates for
    itself, the loan of a book whose status is Available is not opened:
    [add_borrow_record] returns False, the book stays Available and no loan
    is recorded.  The INSERT supplies eight values for the ten columns of
    borrow_records, and the [sqlite3.OperationalError] is caught. *)
Lemma available_book_is_not_lent :
  map bk_status (books given_back) = ["Available"] /\
  borrow_records_columns setup_database_schema = 10%nat /\
  add_borrow_record setup_database_schema second_loan given_back
  = (given_back, Return false).
Proof. repeat split. Qed.

(** C5, counterexample.  On the layout the application creates, the loan L1
    is closed on 2024-01-13 with a fee of 6, and then closed a second time:
    [return_book] returns True again, the return date and the fee of the
    Returned loan are overwritten, and the count of the member goes from 0
    to -1. *)
Lemma returned_loan_is_closed_again :
  let first := return_book setup_database_schema "L1" "2024-01-13" 6%Q on_loan in
  let again :=
    return_book setup_database_schema "L1" "2024-02-01" default_late_fee (fst first) in
  first = (given_back, Return true) /\
  map (fun r => (br_status r, br_return_date r, br_late_fee r))
      (borrow_records given_back) = [("Returned", Some "2024-01-13", 6%Q)] /\
  snd again = Return true /\
  map (fun r => (br_status r, br_return_date r, br_late_fee r))
      (borrow_records (fst again)) = [("Returned", Some "2024-02-01", 0%Q)] /\
  map u_borrowed_books (users given_back) = [0; 0] /\
  map u_borrowed_books (users (fst again)) = [-1; 0].
Proof. cbv zeta. repeat split. Qed.

(** C5, amended.  [return_book] does not look at the status of the loan:
    for every record with the given id, Active or already Returned, on a
    layout that accepts the statements it returns True, sets the return date
    and the fee of the record to its arguments and its status to Returned,
    sets the book to Available and takes one off the count of the member.
    A second close overwrites the first. *)
Theorem return_book_ignores_status sch record_id return_date late_fee s row :
  select_borrow_record s record_id = Some row ->
  closing_accepted sch row s = true ->
  return_book sch record_id return_date late_fee s
  = (closed record_id return_date late_fee row s, Return true).
Proof. intros F A. now rewrite return_book_eq, F, A. Qed.

Lemma return_book_ignores_status_witness :
  option_map br_status (select_borrow_record given_back "L1") = Some "Returned" /\
  return_book setup_database_schema "L1" "2024-02-01" 0%Q given_back
  = (closed "L1" "2024-02-01" 0%Q
       (mkBorrowRow "L1" "B1" "U1" "2024-01-01" "2024-01-10" (Some "2024-01-13")
          6%Q "Returned") given_back,
     Return true).
Proof.
  split; [reflexivity|].
  apply (return_book_ignores_status setup_database_schema "L1" "2024-02-01" 0%Q
           given_back); reflexivity.
Defined.

(** The formula of the specification on its three examples. *)
Example computeLateFee_spec_examples :
  let due := mkDate 2024 1 10 in
  (computeLateFee_spec due (mkDate 2024 1 10) 1 == 0)%Q /\
  (computeLateFee_spec due (mkDate 2024 1 13) 2 == 6)%Q /\
  (computeLateFee_spec due (mkDate 2024 1 9) 2 == 0)%Q.
Proof. repeat split. Qed.




(** *** More facts about the two methods *)

Lemma NoDup_map_same_ids (f : borrow_row -> borrow_row) rows :
  (forall r, br_id (f r) = br_id r) ->
  map br_id (map f rows) = map br_id rows.
Proof. intros H. rewrite map_map. apply map_ext, H. Qed.

(** X24.  The id of a borrow record is a key: when no two records of the
    table share an id, none do after [add_borrow_record] or [return_book],
    whatever their arguments; a record whose id is in use is refused. *)
Theorem borrow_record_ids_stay_distinct sch s :
  NoDup (map br_id (borrow_records s)) ->
  (forall record,
     NoDup (map br_id (borrow_records (fst (add_borrow_record sch record s)))))
  /\ (forall record_id return_date fee,
        map br_id (borrow_records (fst (return_book sch record_id return_date fee s)))
        = map br_id (borrow_records s))
  /\ (forall record, In (id record) (map br_id (borrow_records s)) ->
        add_borrow_record sch record s = (s, Return false)).
Proof.
  intros ND. split; [|split].
  - intros record. rewrite add_borrow_record_eq.
    destruct (lending_accepted sch record s) eqn:A; [|exact ND].
    cbn [fst lent borrow_records]. rewrite map_app. cbn [map br_id].
    apply NoDup_app; [exact ND | repeat constructor; intros [] |].
    intros x Hx [<-|[]].
    unfold lending_accepted in A. rewrite !andb_true_iff in A.
    destruct A as [[[_ A] _] _].
    assert (member (id record) (map br_id (borrow_records s)) = true).
    { unfold member. apply existsb_exists. exists (id record).
      split; [exact Hx | apply String.eqb_refl]. }
    destruct (member _ _); discriminate.
  - intros record_id return_date fee. rewrite return_book_eq.
    destruct (select_borrow_record s record_id) as [row|]; [|reflexivity].
    destruct (closing_accepted sch row s); [|reflexivity].
    cbn [fst closed borrow_records]. apply NoDup_map_same_ids.
    intros r. now destruct (String.eqb (br_id r) record_id).
  - intros record Hin. rewrite add_borrow_record_eq. unfold lending_accepted.
    assert (member (id record) (map br_id (borrow_records s)) = true) as ->.
    { unfold member. apply existsb_exists. exists (id record).
      split; [exact Hin | apply String.eqb_refl]. }
    cbn [negb]. now rewrite andb_false_r.
Qed.

Lemma borrow_record_ids_stay_distinct_witness :
  NoDup (map br_id (borrow_records on_loan)) /\
  add_borrow_record eight_column_schema
    (new_BorrowRecord "L1" "B1" "U2" "2024-01-05" "2024-01-19") on_loan
  = (on_loan, Return false).
Proof.
  assert (ND : NoDup (map br_id (borrow_records on_loan)))
    by (repeat constructor; intros []).
  split; [exact ND|].
  apply (proj2 (proj2 (borrow_record_ids_stay_distinct eight_column_schema on_loan ND))).
  left. reflexivity.
Defined.

(** X25.  Neither method adds, removes or reorders a book or a member, and
    of their columns it writes only the status of books and the
    borrowed_books of users, whatever the layout and the arguments. *)
Theorem books_and_users_stay sch s :
  (forall record,
     let s' := fst (add_borrow_record sch record s) in
     map book_columns (books s') = map book_columns (books s)
     /\ map user_columns (users s') = map user_columns (users s))
  /\ (forall record_id return_date fee,
        let s' := fst (return_book sch record_id return_date fee s) in
        map book_columns (books s') = map book_columns (books s)
        /\ map user_columns (users s') = map user_columns (users s)).
Proof.
  assert (B : forall st bid,
            map book_columns
              (map (fun b => if String.eqb (bk_id b) bid
                             then set_book_status st b else b) (books s))
            = map book_columns (books s)).
  { intros st bid. rewrite map_map. apply map_ext. intros b.
    now destruct (String.eqb (bk_id b) bid). }
  assert (U : forall n uid,
            map user_columns (map (add_borrowed_books n uid) (users s))
            = map user_columns (users s)).
  { intros n uid. rewrite map_map. apply map_ext. intros u.
    unfold add_borrowed_books. now destruct (String.eqb (u_id u) uid). }
  split.
  - intros record. cbv zeta. rewrite add_borrow_record_eq.
    destruct (lending_accepted sch record s); [|now split].
    cbn [fst lent books users]. now rewrite B, U.
  - intros record_id return_date fee. cbv zeta. rewrite return_book_eq.
    destruct (select_borrow_record s record_id) as [row|]; [|now split].
    destruct (closing_accepted sch row s); [|now split].
    cbn [fst closed books users]. now rewrite B, U.
Qed.

(** X26.  On the two layouts the repository creates, [add_borrow_record]
    never lends a book of the table: on the layout of [setup_database] it
    returns False for every record, the INSERT giving eight values for ten
    columns, and on the layout of [init_db.py] it returns False for every
    record of a book of the table, Borrowed failing the CHECK on status.
    The store is left as it was. *)
Theorem no_loan_on_repository_layouts record s :
  add_borrow_record setup_database_schema record s = (s, Return false)
  /\ (has_book s (book_id record) = true ->
      add_borrow_record init_db_schema record s = (s, Return false)).
Proof.
  split.
  - now rewrite add_borrow_record_eq.
  - intros H. rewrite add_borrow_record_eq. unfold lending_accepted. rewrite H.
    cbn [negb orb init_db_schema book_status_check member existsb].
    now rewrite !andb_false_r.
Qed.

Lemma no_loan_on_repository_layouts_witness :
  has_book given_back "B1" = true /\
  add_borrow_record init_db_schema
    (mkBorrowRecord "L2" "B1" "U2" "2024-01-05" "2024-01-19" "borrowed" None None
       0%Q None) given_back
  = (given_back, Return false).
Proof.
  split; [reflexivity|].
  apply (proj2 (no_loan_on_repository_layouts _ given_back)). reflexivity.
Defined.

(** X27.  [return_book] raises TypeError exactly when no record has the
    given id; it catches the errors of the database, and unless it returns
    True the store is what it was. *)
Theorem return_book_outcomes sch record_id return_date fee s :
  (select_borrow_record s record_id = None <->
   snd (return_book sch record_id return_date fee s) = Raises TypeError)
  /\ (snd (return_book sch record_id return_date fee s) <> Return true ->
      fst (return_book sch record_id return_date fee s) = s).
Proof.
  rewrite return_book_eq.
  destruct (select_borrow_record s record_id) as [row|].
  - destruct (closing_accepted sch row s); cbn [fst snd].
    + split; [split; discriminate | intros H; now contradiction H].
    + split; [split; discriminate | reflexivity].
  - cbn [fst snd]. now repeat split.
Qed.

End Library.

(** ** 003 Hotel booking system: booking a room *)

Module HotelBooking.

Import Hotel.

(** Form of [/book/<room_id>], after [int(..)]. *)
Record booking_form : Type := mkBookingForm {
  bf_check_in : string;
  bf_check_out : string;
  bf_guest_count : Z;
  bf_special_requests : string
}.

(** What [book_room] answers: a response, the error page of its [except]
    clause, or the [ValueError] of [strptime] leaving the view. *)
Inductive booking_answer : Type :=
| Responds (r : response)
| RendersWithFlash (template : string) (flashed : flash)
| ValueError.

(** [INSERT INTO bookings (...)]: a new rowid, the default status
    ['confirmed'] and its CHECK. *)
Definition insert_booking (now : string) (user_id room_id : Z)
    (check_in check_out : string) (total_price : Q) (guest_count : Z)
    (special_requests : string) : tx db unit :=
  fun d =>
    let new_booking :=
      mkBooking (next_rowid (map b_id (bookings d))) user_id room_id check_in
        check_out total_price "confirmed" guest_count special_requests now in
    if booking_status_check new_booking
    then inr (tt, mkDb (rooms d) (bookings d ++ [new_booking]))
    else inl IntegrityError.

(** [book_room] (app.py, 169-202) for the user of the session.  [strptime]
    stands for [datetime.strptime(.., '%Y-%m-%d')] as a date, [None] when it
    raises [ValueError]; the nights are the difference of the two dates in
    days.  Subscripting the room raises [TypeError] when no room has the
    id.  The SELECT of the room runs before the method is looked at and
    binds the id of the URL; the INSERT binds the user id of the session and
    the guest count.  [OverflowError] is no [sqlite3.Error]: it leaves the
    view, outside or inside the [try]. *)
Definition book_room (strptime : string -> option PyDate.date) (now : string)
    (user_id room_id : Z) (req : request booking_form) (d : db)
    : db * booking_answer :=
  if negb (int64 room_id) then (d, Responds (InternalServerError OverflowError))
  else
  let room := find (fun r => r_id r =? room_id) (rooms d) in
  match req with
  | POST f =>
    match strptime (bf_check_in f), strptime (bf_check_out f) with
    | Some check_in_date, Some check_out_date =>
      (* Calculate total price *)
      let nights := PyDate.toordinal check_out_date - PyDate.toordinal check_in_date in
      match room with
      | Some room =>
        let total_price := (r_price_per_night room * inject_Z nights)%Q in
        match (bind_parameter user_id ;;
               bind_parameter (bf_guest_count f) ;;
               insert_booking now user_id room_id (bf_check_in f) (bf_check_out f)
                 total_price (bf_guest_count f) (bf_special_requests f) ;;
               update_room_status "occupied" room_id)%tx d with
        | inr (_, d') =>
          (d', Responds (Redirect "dashboard" (Flash "Booking confirmed!" "success")))
        | inl e =>
          (d, if is_sqlite3_Error e
              then RendersWithFlash "book.html"
                     (Flash "Error making booking. Please try again." "error")
              else Responds (InternalServerError e))
        end
      | None => (d, Responds (InternalServerError TypeError))
      end
    | _, _ => (d, ValueError)
    end
  | GET => (d, Responds (Render "book.html"))
  end.

(** The rows [cancel_booking] leaves when it finds the booking. *)
Definition cancelled (booking_id room_id : Z) (d : db) : db :=
  mkDb (map (fun r => if r_id r =? room_id then set_room_status "available" r else r)
            (rooms d))
       (map (fun b => if b_id b =? booking_id
                      then set_booking_status "cancelled" b else b)
            (bookings d)).

(** The rows [book_room] leaves when it books. *)
Definition booked (now : string) (user_id room_id : Z) (f : booking_form)
    (total_price : Q) (d : db) : db :=
  mkDb (map (fun r => if r_id r =? room_id then set_room_status "occupied" r else r)
            (rooms d))
       (bookings d ++
        [mkBooking (next_rowid (map b_id (bookings d))) user_id room_id
           (bf_check_in f) (bf_check_out f) total_price "confirmed"
           (bf_guest_count f) (bf_special_requests f) now]).

(** Sample data: a stay that ends before it starts. *)
Definition backwards_stay : booking_form :=
  mkBookingForm "2024-03-05" "2024-03-03" 1 "".

(** [strptime(.., '%Y-%m-%d')] on dates written with four, two and two
    digits, the form a date field of the booking page sends; the library
    function reads months and days of one digit as well.  [book_room] takes
    the parser as an argument: this one serves the examples. *)
Definition strptime_date (s : string) : option PyDate.date :=
  option_map PyDate.dt_date
    (match PyDate.read_date s with
     | Some (d, EmptyString) => Some (PyDate.mkDatetime d 0 0 0)
     | _ => None
     end).

(** *** More facts about the bookings *)

Lemma update_where_passes {R} (matches : R -> bool) (set : R -> R)
    (check : R -> bool) rows :
  (forall r, check (set r) = true) ->
  update_where matches set check rows
  = inr (map (fun r => if matches r then set r else r) rows).
Proof.
  intros Hc. unfold update_where.
  assert (forallb (fun r => negb (matches r) || check (set r)) rows = true) as ->;
    [|reflexivity].
  apply forallb_forall. intros r _. rewrite Hc. apply orb_true_r.
Qed.

(** The transaction of [cancel_booking] on a booking of the user. *)
Lemma cancel_booking_try_own user_id booking_id d booking :
  select_own_booking d booking_id user_id = Some booking ->
  cancel_booking_try user_id booking_id d
  = inr (Flash "Booking cancelled successfully!" "success",
         cancelled booking_id (b_room_id booking) d).
Proof.
  intros F. unfold cancel_booking_try, bind, get. rewrite F.
  unfold update_booking_status, update_room_status.
  rewrite update_where_passes by reflexivity. cbn [rooms bookings].
  rewrite update_where_passes by reflexivity. reflexivity.
Qed.

(** The transaction of [book_room]: no CHECK refuses its two statements. *)
Lemma book_room_statements_pass now user_id room_id f total_price d :
  (insert_booking now user_id room_id (bf_check_in f) (bf_check_out f)
     total_price (bf_guest_count f) (bf_special_requests f) ;;
   update_room_status "occupied" room_id)%tx d
  = inr (tt, booked now user_id room_id f total_price d).
Proof.
  unfold bind, insert_booking, update_room_status.
  cbn [booking_status_check b_status member existsb String.eqb Ascii.eqb Bool.eqb orb
       rooms bookings].
  now rewrite update_where_passes by reflexivity.
Qed.

(** X18.  [cancel_booking] does not look at the status of the booking or
    at the other bookings of the room: whenever the booking is one of the
    user, it sets every booking with the id to cancelled and every room
    with the id of its room to available, leaves all other rows as they
    were, and flashes success. *)
Theorem cancel_booking_own user_id booking_id d booking :
  select_own_booking d booking_id user_id = Some booking ->
  cancel_booking user_id booking_id d
  = (cancelled booking_id (b_room_id booking) d,
     Redirect "bookings" (Flash "Booking cancelled successfully!" "success")).
Proof.
  intros F. unfold cancel_booking.
  now rewrite (cancel_booking_try_own _ _ _ _ F).
Qed.

Lemma cancel_booking_own_witness :
  select_own_booking two_bookings 1 7
  = Some (mkBooking 1 7 1 "2024-03-01" "2024-03-03" 200%Q "confirmed" 1 ""
            "2024-02-01 10:00:00") /\
  cancel_booking 7 1 two_bookings
  = (cancelled 1 1 two_bookings,
     Redirect "bookings" (Flash "Booking cancelled successfully!" "success")).
Proof.
  split; [reflexivity|].
  exact (cancel_booking_own 7 1 two_bookings
           (mkBooking 1 7 1 "2024-03-01" "2024-03-03" 200%Q "confirmed" 1 ""
              "2024-02-01 10:00:00") eq_refl).
Defined.

Lemma find_booking_after_map (p : booking -> bool) (g : booking -> booking) l :
  (forall b, p (g b) = p b) ->
  find p (map g l) = option_map g (find p l).
Proof.
  intros Hp. induction l as [|b l IH]; [reflexivity|].
  cbn [map find]. rewrite Hp. now destruct (p b).
Qed.

(** X19.  Cancelling is repeatable: a second [cancel_booking] of the same
    booking by its user flashes success again and leaves the database as
    the first one left it. *)
Theorem cancel_booking_twice user_id booking_id d booking :
  select_own_booking d booking_id user_id = Some booking ->
  let d' := fst (cancel_booking user_id booking_id d) in
  cancel_booking user_id booking_id d'
  = (d', Redirect "bookings" (Flash "Booking cancelled successfully!" "success")).
Proof.
  intros F. cbv zeta. unfold cancel_booking.
  rewrite (cancel_booking_try_own _ _ _ _ F). cbn [fst].
  assert (F' : select_own_booking (cancelled booking_id (b_room_id booking) d)
                 booking_id user_id
               = Some (set_booking_status "cancelled" booking)).
  { unfold select_own_booking in *. cbn [cancelled bookings].
    rewrite find_booking_after_map.
    - rewrite F. cbn [option_map]. apply find_some in F as [_ E].
      apply andb_true_iff in E as [E _]. now rewrite E.
    - intros b. cbv beta. destruct (b_id b =? booking_id) eqn:E;
        cbn [set_booking_status b_id b_user_id]; now rewrite ?E. }
  rewrite (cancel_booking_try_own _ _ _ _ F'). f_equal.
  unfold cancelled. cbn [rooms bookings set_booking_status b_room_id].
  rewrite !map_map. f_equal; apply map_ext.
  - intros r. destruct (r_id r =? b_room_id booking) eqn:E; cbn [set_room_status r_id];
      now rewrite E.
  - intros b. destruct (b_id b =? booking_id) eqn:E; cbn [set_booking_status b_id];
      now rewrite E.
Qed.

Lemma cancel_booking_twice_witness :
  let once := fst (cancel_booking 7 1 two_bookings) in
  map b_status (bookings once) = ["cancelled"; "confirmed"] /\
  cancel_booking 7 1 once
  = (once, Redirect "bookings" (Flash "Booking cancelled successfully!" "success")).
Proof.
  cbv zeta. split; [reflexivity|].
  apply (cancel_booking_twice 7 1 two_bookings
           (mkBooking 1 7 1 "2024-03-01" "2024-03-03" 200%Q "confirmed" 1 ""
              "2024-02-01 10:00:00")).
  reflexivity.
Defined.

Lemma bind_parameter_passes {S A} z (k : tx S A) d :
  int64 z = true -> (bind_parameter z ;; k)%tx d = k d.
Proof. intros H. unfold bind, bind_parameter. now rewrite H. Qed.

Lemma bind_parameter_raises {S A} z (k : tx S A) d :
  int64 z = false -> (bind_parameter z ;; k)%tx d = inl OverflowError.
Proof. intros H. unfold bind, bind_parameter. now rewrite H. Qed.

(** The answer of [book_room] to a form whose dates parse, for a room of
    the table and ids and a guest count of 64 bits. *)
Lemma book_room_booked strptime now user_id room_id f d room check_in check_out :
  int64 room_id = true -> int64 user_id = true ->
  int64 (bf_guest_count f) = true ->
  find (fun r => r_id r =? room_id) (rooms d) = Some room ->
  strptime (bf_check_in f) = Some check_in ->
  strptime (bf_check_out f) = Some check_out ->
  book_room strptime now user_id room_id (POST f) d
  = (booked now user_id room_id f
       (r_price_per_night room
        * inject_Z (PyDate.toordinal check_out - PyDate.toordinal check_in))%Q d,
     Responds (Redirect "dashboard" (Flash "Booking confirmed!" "success"))).
Proof.
  intros Hr Hu Hg Fr Hin Hout. unfold book_room.
  rewrite Hr, Fr, Hin, Hout. cbn [negb].
  rewrite (bind_parameter_passes _ _ _ Hu), (bind_parameter_passes _ _ _ Hg).
  now rewrite book_room_statements_pass.
Qed.



(** X21.  The requests [book_room] does not answer.  A room id beyond 64
    bits ends in OverflowError, for GET and POST alike; with the id in
    range, a date that does not parse ends in ValueError, then an id that
    no room has in the TypeError of subscripting None, then a user id or a
    guest count beyond 64 bits in OverflowError.  In all these cases, and
    for every GET, the database is what it was. *)
Theorem book_room_errors strptime now user_id room_id f d :
  (int64 room_id = false ->
   forall req, book_room strptime now user_id room_id req d
               = (d, Responds (InternalServerError OverflowError)))
  /\ (int64 room_id = true ->
      strptime (bf_check_in f) = None \/ strptime (bf_check_out f) = None ->
      book_room strptime now user_id room_id (POST f) d = (d, ValueError))
  /\ (int64 room_id = true ->
      strptime (bf_check_in f) <> None -> strptime (bf_check_out f) <> None ->
      find (fun r => r_id r =? room_id) (rooms d) = None ->
      book_room strptime now user_id room_id (POST f) d
      = (d, Responds (InternalServerError TypeError)))
  /\ (int64 room_id = true ->
      strptime (bf_check_in f) <> None -> strptime (bf_check_out f) <> None ->
      find (fun r => r_id r =? room_id) (rooms d) <> None ->
      int64 user_id = false \/ int64 (bf_guest_count f) = false ->
      book_room strptime now user_id room_id (POST f) d
      = (d, Responds (InternalServerError OverflowError)))
  /\ fst (book_room strptime now user_id room_id GET d) = d.
Proof.
  unfold book_room. repeat split.
  - intros Hr req. now rewrite Hr.
  - intros Hr [H|H]; rewrite Hr, H; [reflexivity|].
    now destruct (strptime (bf_check_in f)).
  - intros Hr Hin Hout Fr. rewrite Hr, Fr.
    destruct (strptime (bf_check_in f)); [|contradiction].
    destruct (strptime (bf_check_out f)); [reflexivity|contradiction].
  - intros Hr Hin Hout Fr Hov. rewrite Hr. cbn [negb].
    destruct (strptime (bf_check_in f)); [|contradiction].
    destruct (strptime (bf_check_out f)); [|contradiction].
    destruct (find _ (rooms d)) as [room|]; [|contradiction].
    destruct (int64 user_id) eqn:Hu.
    + destruct Hov as [Hov|Hg]; [discriminate|].
      now rewrite (bind_parameter_passes _ _ _ Hu), (bind_parameter_raises _ _ _ Hg).
    + now rewrite (bind_parameter_raises _ _ _ Hu).
  - now destruct (int64 room_id).
Qed.

Lemma book_room_errors_witness :
  book_room strptime_date "2024-02-03 10:00:00" 9 (2 ^ 63) GET two_bookings
  = (two_bookings, Responds (InternalServerError OverflowError)) /\
  book_room strptime_date "2024-02-03 10:00:00" 9 1
    (POST (mkBookingForm "2024-02-30" "2024-03-03" 1 "")) two_bookings
  = (two_bookings, ValueError) /\
  book_room strptime_date "2024-02-03 10:00:00" 9 5 (POST backwards_stay) two_bookings
  = (two_bookings, Responds (InternalServerError TypeError)) /\
  book_room strptime_date "2024-02-03 10:00:00" 9 1
    (POST (mkBookingForm "2024-03-01" "2024-03-03" (2 ^ 63) "")) two_bookings
  = (two_bookings, Responds (InternalServerError OverflowError)).
Proof.
  split; [|split; [|split]].
  - apply (proj1 (book_room_errors _ _ _ _ backwards_stay _)). reflexivity.
  - apply (proj1 (proj2 (book_room_errors _ _ _ _ _ _))); [reflexivity|].
    left. reflexivity.
  - apply (proj1 (proj2 (proj2 (book_room_errors _ _ _ _ _ _))));
      [reflexivity | discriminate | discriminate | reflexivity].
  - apply (proj1 (proj2 (proj2 (proj2 (book_room_errors _ _ _ _ _ _)))));
      [reflexivity | discriminate | discriminate | discriminate |].
    right. reflexivity.
Defined.

Lemma next_booking_id_fresh l b :
  In b l -> b_id b <> next_rowid (map b_id l).
Proof.
  intros Hin E. unfold next_rowid in E.
  assert (forall ids x, In x ids -> x <= fold_right Z.max 0 ids) as Hmax.
  { induction ids as [|y ids IH]; cbn [fold_right In]; [tauto|].
    intros x [->|Hx]; [|specialize (IH x Hx)]; lia. }
  pose proof (Hmax _ _ (in_map b_id _ _ Hin)). lia.
Qed.

Lemma find_appended_booking (l : list booking) new :
  (forall b, In b l -> b_id b <> b_id new) ->
  find (fun b => (b_id b =? b_id new) && (b_user_id b =? b_user_id new)) (l ++ [new])
  = Some new.
Proof.
  induction l as [|b l IH]; intros Hold.
  - cbn. now rewrite !Z.eqb_refl.
  - cbn [app find].
    destruct (Z.eqb_spec (b_id b) (b_id new)) as [E|_].
    + exfalso. apply (Hold b); [now left | exact E].
    + cbn [andb]. apply IH. intros b' Hb'. apply Hold. now right.
Qed.

(** X22.  A booking just made can be cancelled by the user who made it, and
    the cancellation sets the room to available whatever its status was
    before the booking and whatever other bookings of the room there are:
    these keep the status they had.  The ids and the guest count are taken
    to fit the integers of the database. *)
Theorem cancel_after_book strptime now user_id room_id f d room check_in check_out :
  int64 room_id = true -> int64 user_id = true ->
  int64 (bf_guest_count f) = true ->
  int64 (next_rowid (map b_id (bookings d))) = true ->
  find (fun r => r_id r =? room_id) (rooms d) = Some room ->
  strptime (bf_check_in f) = Some check_in ->
  strptime (bf_check_out f) = Some check_out ->
  let new_id := next_rowid (map b_id (bookings d)) in
  let d1 := fst (book_room strptime now user_id room_id (POST f) d) in
  let d2 := fst (cancel_booking_route user_id new_id d1) in
  snd (cancel_booking_route user_id new_id d1)
  = Redirect "bookings" (Flash "Booking cancelled successfully!" "success")
  /\ (forall r, In r (rooms d2) -> r_id r = room_id -> r_status r = "available")
  /\ firstn (List.length (bookings d)) (bookings d2) = bookings d
  /\ map b_status (skipn (List.length (bookings d)) (bookings d2)) = ["cancelled"].
Proof.
  intros Hr Hu Hg Hnew Fr Hin Hout. cbv zeta.
  rewrite (book_room_booked _ _ _ _ _ _ _ _ _ Hr Hu Hg Fr Hin Hout). cbn [fst].
  rewrite (cancel_booking_route_in_range _ _ _ Hnew Hu).
  set (price := (_ * _)%Q). set (new_id := next_rowid (map b_id (bookings d))).
  set (new := mkBooking new_id user_id room_id (bf_check_in f) (bf_check_out f)
                price "confirmed" (bf_guest_count f) (bf_special_requests f) now).
  assert (Hold : forall b, In b (bookings d) -> (b_id b =? new_id) = false).
  { intros b Hb. apply Z.eqb_neq. now apply next_booking_id_fresh. }
  assert (F : select_own_booking (booked now user_id room_id f price d) new_id user_id
              = Some new).
  { unfold select_own_booking, booked. cbn [bookings]. fold new_id. fold new.
    apply (find_appended_booking (bookings d) new).
    intros b Hb. now apply next_booking_id_fresh. }
  unfold cancel_booking. rewrite (cancel_booking_try_own _ _ _ _ F). cbn [fst snd].
  split; [reflexivity|]. split; [|split].
  - intros r Hr' Eid. cbn [cancelled booked rooms new b_room_id] in Hr'.
    rewrite map_map in Hr'. apply in_map_iff in Hr' as (r0 & <- & _).
    destruct (r_id r0 =? room_id) eqn:E; cbn [set_room_status r_id] in *.
    + now rewrite E.
    + rewrite E in *. apply Z.eqb_neq in E. contradiction.
  - cbn [cancelled booked bookings]. fold new_id. fold new. rewrite map_app.
    rewrite firstn_app, length_map, Nat.sub_diag, firstn_O, app_nil_r.
    rewrite <- (length_map (fun b => if b_id b =? new_id
                                     then set_booking_status "cancelled" b else b)),
      firstn_all.
    rewrite <- (map_id (bookings d)) at 2. apply map_ext_in.
    intros b Hb. now rewrite (Hold b Hb).
  - cbn [cancelled booked bookings]. fold new_id. fold new. rewrite map_app.
    rewrite skipn_app, length_map, Nat.sub_diag, skipn_O.
    rewrite <- (length_map (fun b => if b_id b =? new_id
                                     then set_booking_status "cancelled" b else b)),
      skipn_all.
    cbn [app map new b_id]. now rewrite Z.eqb_refl.
Qed.

Lemma cancel_after_book_witness :
  let d1 :=
    fst (book_room strptime_date "2024-02-03 10:00:00" 9 1
           (POST (mkBookingForm "2024-03-10" "2024-03-12" 2 "")) two_bookings) in
  let d2 := fst (cancel_booking_route 9 3 d1) in
  map r_status (rooms d2) = ["available"; "occupied"] /\
  map (fun b => (b_id b, b_room_id b, b_status b)) (bookings d2)
  = [(1, 1, "confirmed"); (2, 2, "confirmed"); (3, 1, "cancelled")] /\
  forall r, In r (rooms d2) -> r_id r = 1 -> r_status r = "available".
Proof.
  cbv zeta. split; [reflexivity|]. split; [reflexivity|].
  exact (proj1 (proj2 (cancel_after_book strptime_date "2024-02-03 10:00:00" 9 1
           (mkBookingForm "2024-03-10" "2024-03-12" 2 "") two_bookings
           _ _ _ eq_refl eq_refl eq_refl eq_refl eq_refl eq_refl eq_refl))).
Defined.

End HotelBooking.
(** ** 002 Inventory management system: accounts *)

Module Accounts.

(** Row of [users] (app.py, 16-22); [password] holds the hash. *)
Record user : Type := mkUser {
  u_id : Z;
  u_username : string;
  u_password : string;
  u_email : string;
  u_created_at : string
}.

(** Form of [/register]. *)
Record register_form : Type := mkRegisterForm {
  rf_username : string;
  rf_password : string;
  rf_email : string
}.

(** Form of [/login]. *)
Record login_form : Type := mkLoginForm {
  lf_username : string;
  lf_password : string
}.

(** The two keys the views keep in the Flask session, set and cleared
    together: [session['user_id']] and [session['username']]. *)
Definition session : Type := option (Z * string).

(** What a view of this part answers: the redirect or the template, and
    the messages flashed before it. *)
Inductive page : Type :=
| RedirectTo (endpoint : string) (flashed : list flash)
| RenderTemplate (template : string) (flashed : list flash).

(** The first test of [register] that fails (app.py, 87-92); a Python string
    is false when it is empty. *)
Definition missing_field (f : register_form) : option string :=
  if String.eqb (rf_username f) "" then Some "Username is required."
  else if String.eqb (rf_password f) "" then Some "Password is required."
  else if String.eqb (rf_email f) "" then Some "Email is required."
  else None.

(** The UNIQUE constraints on [username] and [email]. *)
Definition taken (f : register_form) (users : list user) : bool :=
  member (rf_username f) (map u_username users)
  || member (rf_email f) (map u_email users).

(** [register] (app.py, 77-110).  [pwhash] is what
    [generate_password_hash(password)] returned for this request. *)
Definition register (now : string) (pwhash : string)
    (req : request register_form) (users : list user) : list user * page :=
  match req with
  | POST f =>
    match missing_field f with
    | None =>
      if taken f users
      then (users,
            RenderTemplate "register.html"
              [flash_message
                 ("User " ++ rf_username f ++ " or email " ++ rf_email f
                  ++ " is already registered.")])
      else ((users ++
             [mkUser (next_rowid (map u_id users)) (rf_username f) pwhash
                (rf_email f) now])%list,
            RedirectTo "login"
              [flash_message "Registration successful! Please login."])
    | Some error => (users, RenderTemplate "register.html" [flash_message error])
    end
  | GET => (users, RenderTemplate "register.html" [])
  end.

(** [SELECT * FROM users WHERE username = ?], [fetchone()]. *)
Definition select_user (users : list user) (username : string) : option user :=
  find (fun u => String.eqb (u_username u) username) users.

(** [login] (app.py, 112-138).  [check_password_hash] is the function of
    werkzeug, an argument here. *)
Definition login (check_password_hash : string -> string -> bool)
    (req : request login_form) (users : list user) (s : session)
    : session * page :=
  match req with
  | POST f =>
    match select_user users (lf_username f) with
    | None => (s, RenderTemplate "login.html" [flash_message "Incorrect username."])
    | Some user =>
      if check_password_hash (u_password user) (lf_password f)
      then (Some (u_id user, u_username user), RedirectTo "dashboard" [])
      else (s, RenderTemplate "login.html" [flash_message "Incorrect password."])
    end
  | GET => (s, RenderTemplate "login.html" [])
  end.

(** [logout] (app.py, 140-143). *)
Definition logout (s : session) : session * page := (None, RedirectTo "login" []).

(** [login_required] (app.py, 61-68) around a view that answers [view]. *)
Definition login_required (view : page) (s : session) : page :=
  match s with
  | None => RedirectTo "login" [flash_message "Please log in first"]
  | Some _ => view
  end.

(** No two users share a username, an email or an id. *)
Definition distinct_users (users : list user) : Prop :=
  NoDup (map u_username users) /\ NoDup (map u_email users)
  /\ NoDup (map u_id users).

(** Sample data. *)
Definition alice : register_form := mkRegisterForm "alice" "s3cret" "alice@example.com".

Definition toy_hash (password : string) : string := "toy$" ++ password.

Definition toy_check (pwhash password : string) : bool :=
  String.eqb pwhash (toy_hash password).

(** *** Facts about the accounts *)

Lemma member_In s l : member s l = true <-> In s l.
Proof.
  unfold member. rewrite existsb_exists. split.
  - intros (x & Hin & E). apply String.eqb_eq in E. now subst.
  - intros Hin. exists s. split; [exact Hin | apply String.eqb_refl].
Qed.

Lemma register_cases now pwhash f users :
  register now pwhash (POST f) users
  = if match missing_field f with None => negb (taken f users) | Some _ => false end
    then ((users ++ [mkUser (next_rowid (map u_id users)) (rf_username f) pwhash
                       (rf_email f) now])%list,
          RedirectTo "login" [flash_message "Registration successful! Please login."])
    else (users, snd (register now pwhash (POST f) users)).
Proof.
  cbn [register]. destruct (missing_field f); [reflexivity|].
  now destruct (taken f users).
Qed.

(** X15.  [register] adds a user exactly when the three fields are not
    empty and neither the username nor the email is that of a user of the
    table; in every other case the table is what it was. *)
Theorem register_adds_iff_fresh now pwhash f users :
  let users' := fst (register now pwhash (POST f) users) in
  (rf_username f <> "" /\ rf_password f <> "" /\ rf_email f <> ""
   /\ ~ In (rf_username f) (map u_username users)
   /\ ~ In (rf_email f) (map u_email users) ->
   users' = (users ++ [mkUser (next_rowid (map u_id users)) (rf_username f) pwhash
                         (rf_email f) now])%list)
  /\ (rf_username f = "" \/ rf_password f = "" \/ rf_email f = ""
      \/ In (rf_username f) (map u_username users)
      \/ In (rf_email f) (map u_email users) ->
      users' = users).
Proof.
  cbv zeta. rewrite register_cases. unfold missing_field, taken.
  destruct (String.eqb_spec (rf_username f) "") as [U|U];
  destruct (String.eqb_spec (rf_password f) "") as [P|P];
  destruct (String.eqb_spec (rf_email f) "") as [E|E];
    try (split; [tauto | reflexivity]).
  destruct (member (rf_username f) (map u_username users)) eqn:Mu;
  destruct (member (rf_email f) (map u_email users)) eqn:Me; cbn [orb negb fst];
    try (split; [|reflexivity]; intros (_ & _ & _ & Nu & Ne);
         try (apply member_In in Mu; contradiction);
         apply member_In in Me; contradiction).
  split; [reflexivity|].
  assert (~ In (rf_username f) (map u_username users))
    by (rewrite <- member_In; congruence).
  assert (~ In (rf_email f) (map u_email users))
    by (rewrite <- member_In; congruence).
  tauto.
Qed.

Lemma register_adds_iff_fresh_witness :
  let users := fst (register "2024-01-01 09:00:00" "h1" (POST alice) []) in
  map u_username users = ["alice"] /\
  fst (register "2024-01-02 09:00:00" "h2"
         (POST (mkRegisterForm "alice" "other" "a2@example.com")) users) = users /\
  fst (register "2024-01-02 09:00:00" "h2"
         (POST (mkRegisterForm "bob" "" "bob@example.com")) users) = users.
Proof.
  cbv zeta. split; [reflexivity|]. split.
  - apply (proj2 (register_adds_iff_fresh _ _ _ _)). cbn. tauto.
  - apply (proj2 (register_adds_iff_fresh _ _ _ _)). cbn. tauto.
Defined.

Lemma next_user_id_fresh users :
  ~ In (next_rowid (map u_id users)) (map u_id users).
Proof.
  unfold next_rowid. intros Hin.
  assert (forall ids x, In x ids -> x <= fold_right Z.max 0 ids) as Hmax.
  { induction ids as [|y ids IH]; cbn [fold_right In]; [tauto|].
    intros x [->|Hx]; [|specialize (IH x Hx)]; lia. }
  apply Hmax in Hin. lia.
Qed.

Lemma NoDup_snoc {A} (l : list A) x : NoDup l -> ~ In x l -> NoDup (l ++ [x]).
Proof.
  intros Hl Hx. apply NoDup_app; [exact Hl | repeat constructor; intros [] |].
  intros y Hy [<-|[]]. contradiction.
Qed.

(** X16.  Whatever is posted to [register], the usernames of the table stay
    pairwise different, and so do the emails and the ids. *)
Theorem register_keeps_users_distinct now pwhash req users :
  distinct_users users -> distinct_users (fst (register now pwhash req users)).
Proof.
  intros (Hu & He & Hi). destruct req as [|f]; [now repeat split|].
  rewrite register_cases.
  destruct (missing_field f); [now repeat split|].
  destruct (taken f users) eqn:T; [now repeat split|].
  unfold taken in T. apply orb_false_iff in T as [Tu Te].
  cbn [negb fst]. unfold distinct_users. rewrite !map_app. cbn [map u_username u_email u_id].
  repeat split; apply NoDup_snoc; trivial.
  - rewrite <- member_In. congruence.
  - rewrite <- member_In. congruence.
  - apply next_user_id_fresh.
Qed.

Lemma register_keeps_users_distinct_witness :
  distinct_users [] /\
  distinct_users (fst (register "2024-01-01 09:00:00" "h1" (POST alice) [])).
Proof.
  assert (H : distinct_users []) by (repeat split; constructor).
  split; [exact H|].
  exact (register_keeps_users_distinct _ _ _ _ H).
Defined.

Lemma select_new_user users u :
  ~ In (u_username u) (map u_username users) ->
  select_user (users ++ [u]) (u_username u) = Some u.
Proof.
  unfold select_user. induction users as [|v users IH]; intros N.
  - cbn. now rewrite String.eqb_refl.
  - cbn [app find]. cbn [map In] in N.
    destruct (String.eqb_spec (u_username v) (u_username u)) as [E|_]; [tauto|].
    apply IH. tauto.
Qed.

(** X17.  A user who has just registered can log in: when the hash stored
    verifies the password it was made from, [login] with the username and
    the password of a registration that succeeded opens the session for the
    id the registration gave, and redirects to the dashboard.  A login whose
    password the hash does not verify leaves the session as it was. *)
Theorem login_after_register check_password_hash now pwhash f users s :
  check_password_hash pwhash (rf_password f) = true ->
  missing_field f = None -> taken f users = false ->
  let users' := fst (register now pwhash (POST f) users) in
  login check_password_hash
    (POST (mkLoginForm (rf_username f) (rf_password f))) users' s
  = (Some (next_rowid (map u_id users), rf_username f), RedirectTo "dashboard" [])
  /\ forall password,
       check_password_hash pwhash password = false ->
       fst (login check_password_hash
              (POST (mkLoginForm (rf_username f) password)) users' s) = s.
Proof.
  intros Hcheck Hmissing Htaken. cbv zeta.
  rewrite register_cases, Hmissing, Htaken. cbn [negb fst].
  assert (F : select_user
                (users ++ [mkUser (next_rowid (map u_id users)) (rf_username f)
                             pwhash (rf_email f) now]) (rf_username f)
              = Some (mkUser (next_rowid (map u_id users)) (rf_username f)
                        pwhash (rf_email f) now)).
  { apply select_new_user. cbn [u_username]. rewrite <- member_In.
    unfold taken in Htaken. apply orb_false_iff in Htaken as [Tu _]. congruence. }
  split.
  - cbn [login lf_username lf_password]. rewrite F. cbn [u_password u_id u_username].
    now rewrite Hcheck.
  - intros password Hno. cbn [login lf_username lf_password].
    rewrite F. cbn [u_password]. now rewrite Hno.
Qed.

Lemma login_after_register_witness :
  let users := fst (register "2024-01-01 09:00:00" (toy_hash "s3cret") (POST alice) []) in
  toy_check (toy_hash "s3cret") "s3cret" = true /\
  login toy_check (POST (mkLoginForm "alice" "s3cret")) users None
  = (Some (1, "alice"), RedirectTo "dashboard" []) /\
  login toy_check (POST (mkLoginForm "alice" "guess")) users None
  = (None, RenderTemplate "login.html" [flash_message "Incorrect password."]) /\
  login toy_check (POST (mkLoginForm "bob" "s3cret")) users None
  = (None, RenderTemplate "login.html" [flash_message "Incorrect username."]).
Proof.
  cbv zeta. split; [reflexivity|]. split; [|split; reflexivity].
  exact (proj1 (login_after_register toy_check "2024-01-01 09:00:00"
                  (toy_hash "s3cret") alice [] None eq_refl eq_refl eq_refl)).
Defined.

End Accounts.
